(** * The coin ledger and redemption workflow of the poll-play backend

    A shallow embedding of the request handlers of [src/app.py] that read or
    write a user's coin balance, the [referredBy] back-reference, the per-day
    ad statistics, the polls and the redemption requests, followed by the
    properties the specification states about them.

    Conventions of the embedding.
    - A table with a string primary key is a [gmap string row]; the key of the
      map is the primary-key column, so a row record has no [id] field.  Where
      a handler lists rows, the row carries its SQLite [rowid] and the listing
      is in [rowid] order, the order of insertion.  [ads_stats], whose key is
      an auto-incremented integer, is the list of its rows in insertion
      order.
    - Python [int] is [Z].  An [Integer] column holds a signed 64-bit value:
      a commit that binds an integer outside that range raises
      [OverflowError] and stores nothing.  Every path of [app.py] that writes
      an integer column writes an [int] (the pydantic models have no optional
      integer), so integer columns are never NULL.
    - A handler runs inside one SQLAlchemy session ([Depends(get_db)]): what
      it changed reaches the database at [db.commit()], and an exception
      raised before that closes the session and discards the changes.  An
      exception raised after the commit, while the answer is built, leaves
      the committed changes in place.
    - A [Text] column holding a JSON list of strings ([votedBy], [likedBy],
      [specializations]) is the list itself.
    - Responses are the pydantic values the handler returns. *)

From stdpp Require Import base strings gmap list fin_maps pretty sorting.
From Stdlib Require Import ZArith Lia Floats Ascii.

Local Open Scope Z_scope.

(** ** Python values *)

(** A [datetime]; the handlers only store, compare for presence and print
    them. *)
Definition datetime := Z.

(** What the handlers take from the interpreter and its libraries:
    [dateutil.parser.parse] ([None] when it raises), [datetime.isoformat],
    [datetime.strftime("%Y-%m-%d")], [str] on a [float], the map CPython's
    [int] applies to a [str] that is not ASCII (each Unicode decimal digit to
    its ASCII digit, each Unicode blank to a space, following the Unicode
    database of the interpreter), and the number of nested calls of
    [build_comments] that fit under the recursion limit. *)
Class PyLib := {
  date_parser_parse : string → option datetime;
  isoformat : datetime → string;
  strftime_Ymd : datetime → string;
  float_str : float → string;
  decimal_and_space_to_ascii : string → string;
  recursion_depth : nat
}.

(** [x or 0] on an [int]. *)
Definition or0 (x : Z) : Z := if decide (x = 0) then 0 else x.

(** Truth value of an [Optional[str]]: [None] and the empty string are
    false. *)
Definition truthy (o : option string) : bool :=
  match o with
  | Some s => bool_decide (s ≠ "")
  | None => false
  end.

(** [str(n)] for an [int]. *)
Definition str (n : Z) : string := pretty n.

(** [int(s)] for an ASCII [str]: surrounding white space is dropped, then
    an optional sign, then decimal digits in which single underscores may
    separate digits.  [None] stands for [ValueError]. *)
Definition is_space (a : ascii) : bool :=
  let n := N_of_ascii a in
  bool_decide (n = 32 ∨ (9 ≤ n ∧ n ≤ 13))%N.

Fixpoint lstrip (l : list ascii) : list ascii :=
  match l with
  | a :: l' => if is_space a then lstrip l' else l
  | [] => []
  end.

Definition strip (l : list ascii) : list ascii :=
  reverse (lstrip (reverse (lstrip l))).

Definition digit_of (a : ascii) : option Z :=
  let n := Z.of_N (N_of_ascii a) in
  if bool_decide (48 ≤ n ∧ n ≤ 57) then Some (n - 48) else None.

Fixpoint int_digits (acc : Z) (after_underscore : bool) (l : list ascii)
  : option Z :=
  match l with
  | [] => if after_underscore then None else Some acc
  | a :: l' =>
      if bool_decide (a = "_"%char)
      then if after_underscore then None else int_digits acc true l'
      else match digit_of a with
           | Some d => int_digits (10 * acc + d) false l'
           | None => None
           end
  end.

Definition int_unsigned (l : list ascii) : option Z :=
  match l with
  | a :: l' =>
      match digit_of a with
      | Some d => int_digits d false l'
      | None => None
      end
  | [] => None
  end.

Definition int_of_ascii (s : string) : option Z :=
  match strip (String.list_ascii_of_string s) with
  | a :: l' =>
      if bool_decide (a = "-"%char) then Z.opp <$> int_unsigned l'
      else if bool_decide (a = "+"%char) then int_unsigned l'
      else int_unsigned (a :: l')
  | [] => None
  end.

Definition is_ascii (s : string) : bool :=
  forallb (λ a, bool_decide (N_of_ascii a < 128)%N)
          (String.list_ascii_of_string s).

(** [int(s)] for a [str]: an ASCII string is parsed as it is, any other
    after the interpreter has mapped its Unicode digits and blanks to
    ASCII. *)
Definition int_of_str `{PyLib} (s : string) : option Z :=
  int_of_ascii (if is_ascii s then s else decimal_and_space_to_ascii s).

(** The values an [Integer] column of SQLite holds. *)
Definition int64 (n : Z) : Prop :=
  -9223372036854775808 ≤ n ≤ 9223372036854775807.

Global Instance int64_dec n : Decision (int64 n) :=
  and_dec (Z.le_dec _ _) (Z.le_dec _ _).

(** ** Exceptions and the handler monad *)

(** What a handler can raise: FastAPI's [HTTPException], the 422 that FastAPI
    answers when a [Query(..., ge=1)] parameter is out of range,
    [dateutil]'s [ParserError], SQLAlchemy's [IntegrityError] (a primary key
    or UNIQUE constraint violated at commit), the [OverflowError] of binding
    an integer beyond 64 bits, the [AttributeError] of reading a column of
    [None], and [RecursionError]. *)
Inductive exn :=
| HTTPException (status_code : Z) (detail : string)
| RequestValidationError
| ParserError
| IntegrityError
| AttributeError
| OverflowError
| RecursionError.

Inductive result (A : Type) :=
| Ok (a : A)
| Raise (e : exn).
Arguments Ok {A} a.
Arguments Raise {A} e.

Global Instance result_ret : MRet result := λ A, Ok.
Global Instance result_bind : MBind result := λ A B f m,
  match m with
  | Ok a => f a
  | Raise e => Raise e
  end.
Global Instance result_fmap : FMap result := λ A B f m,
  match m with
  | Ok a => Ok (f a)
  | Raise e => Raise e
  end.

(** [x = q.first(); if not x: raise e] *)
Definition or_raise {A} (o : option A) (e : exn) : result A :=
  match o with
  | Some a => Ok a
  | None => Raise e
  end.

(** [if b: raise e] *)
Definition raise_if (b : bool) (e : exn) : result unit :=
  if b then Raise e else Ok ().

(** [[f(x) for x in l]]: the first exception ends the loop. *)
Fixpoint result_map {A B} (f : A → result B) (l : list A) : result (list B) :=
  match l with
  | [] => Ok []
  | x :: l' => y ← f x; ys ← result_map f l'; Ok (y :: ys)
  end.

(** The message of the [OverflowError] of the SQLite driver. *)
Definition overflow_message : string :=
  "Python int too large to convert to SQLite INTEGER".

(** Binding the integers a commit writes. *)
Definition sqlite_ints (ns : list Z) : result unit :=
  raise_if (bool_decide (¬ Forall int64 ns)) OverflowError.

(** ** Tables (the SQLAlchemy models) *)

(** The rows of a table in [rowid] order, and the [rowid] SQLite gives to
    the next inserted row: one more than the largest in the table. *)
Definition rowid_le {A} (rowid : A → N) (x y : string * A) : Prop :=
  (rowid x.2 ≤ rowid y.2)%N.

Global Instance rowid_le_dec {A} (rowid : A → N) x y :
  Decision (rowid_le rowid x y) := N.le_dec _ _.

Definition in_rowid_order {A} (rowid : A → N) (table : gmap string A)
  : list (string * A) :=
  merge_sort (rowid_le rowid) (map_to_list table).

Definition next_rowid {A} (rowid : A → N) (table : gmap string A) : N :=
  (1 + map_fold (λ _ row m, N.max (rowid row) m) 0 table)%N.

Module UserDB.
Record t := mk {
  name : string;
  email : string;
  password : string;
  avatar : string;
  isAdmin : bool;
  coins : Z;
  dailyAttempts : Z;
  lastAttemptDate : datetime;
  isBanned : bool;
  lastSeen : option datetime;
  mobile : option string;
  gender : option string;
  bio : option string;
  specializations : option (list string);
  referralCode : option string;
  referredBy : option string
}.

(** [user_db.coins = c] *)
Definition set_coins (c : Z) (u : t) : t :=
  mk (name u) (email u) (password u) (avatar u) (isAdmin u) c
     (dailyAttempts u) (lastAttemptDate u) (isBanned u) (lastSeen u)
     (mobile u) (gender u) (bio u) (specializations u) (referralCode u)
     (referredBy u).

(** [user_db.referredBy = r] *)
Definition set_referredBy (r : option string) (u : t) : t :=
  mk (name u) (email u) (password u) (avatar u) (isAdmin u) (coins u)
     (dailyAttempts u) (lastAttemptDate u) (isBanned u) (lastSeen u)
     (mobile u) (gender u) (bio u) (specializations u) (referralCode u) r.
End UserDB.

Module PollDB.
Record t := mk {
  title : string;
  description : string;
  category : string;
  thumbnail : string;
  createdAt : datetime;
  disableVoiceComments : bool
}.
End PollDB.

Module PollOptionDB.
Record t := mk {
  poll_id : string;
  text : string;
  imageUrl : string;
  votes : Z;
  votedBy : list string;
  rowid : N
}.
End PollOptionDB.

Module CommentDB.
Record t := mk {
  poll_id : option string;
  user_id : string;
  text : string;
  audio_url : option string;
  timestamp : datetime;
  likes : Z;
  likedBy : list string;
  parent_id : option string;
  flaggedForReview : bool;
  reviewReason : option string;
  rowid : N
}.
End CommentDB.

Module RedemptionRequestDB.
Record t := mk {
  user_id : string;
  amount : Z;
  paymentDetails : string;
  status : string;
  requestedAt : datetime;
  updatedAt : option datetime;
  adminNotes : option string;
  rowid : N
}.
End RedemptionRequestDB.

Module GameResultDB.
Record t := mk {
  user_id : string;
  targetTime : float;
  actualTime : float;
  accuracy : float;
  coinsWon : Z;
  playedAt : datetime
}.
End GameResultDB.

Module AdsStatsDB.
Record t := mk {
  user_id : string;
  date : string;
  watched : Z;
  coins : Z
}.
End AdsStatsDB.

(** The database: the tables the ledger reads or writes.  [settings] is the
    table of [SettingsDB], key to value. *)
Record DB := mkDB {
  users : gmap string UserDB.t;
  polls : gmap string PollDB.t;
  poll_options : gmap string PollOptionDB.t;
  ads_stats : list AdsStatsDB.t;
  redemption_requests : gmap string RedemptionRequestDB.t;
  game_results : gmap string GameResultDB.t;
  settings : gmap string string;
  comments : gmap string CommentDB.t
}.

Definition set_users (us : gmap string UserDB.t) (db : DB) : DB :=
  mkDB us (polls db) (poll_options db) (ads_stats db)
       (redemption_requests db) (game_results db) (settings db)
       (comments db).

Definition set_poll_options (os : gmap string PollOptionDB.t) (db : DB) : DB :=
  mkDB (users db) (polls db) os (ads_stats db)
       (redemption_requests db) (game_results db) (settings db)
       (comments db).

Definition set_ads_stats (rows : list AdsStatsDB.t) (db : DB) : DB :=
  mkDB (users db) (polls db) (poll_options db) rows
       (redemption_requests db) (game_results db) (settings db)
       (comments db).

Definition set_redemption_requests
    (rs : gmap string RedemptionRequestDB.t) (db : DB) : DB :=
  mkDB (users db) (polls db) (poll_options db) (ads_stats db)
       rs (game_results db) (settings db) (comments db).

Definition set_game_results (gs : gmap string GameResultDB.t) (db : DB) : DB :=
  mkDB (users db) (polls db) (poll_options db) (ads_stats db)
       (redemption_requests db) gs (settings db) (comments db).

Definition set_settings (ss : gmap string string) (db : DB) : DB :=
  mkDB (users db) (polls db) (poll_options db) (ads_stats db)
       (redemption_requests db) (game_results db) ss (comments db).

(** ** Request and response bodies (the pydantic models) *)

Module User.
Record t := mk {
  id : string;
  name : string;
  email : string;
  password : string;
  avatar : string;
  isAdmin : bool;
  coins : Z;
  dailyAttempts : Z;
  lastAttemptDate : string;
  isBanned : bool;
  mobile : option string;
  gender : option string;
  bio : option string;
  specializations : option (list string);
  referralCode : option string;
  referredBy : option string
}.
End User.

Module CommentUser.
Record t := mk {
  id : string;
  name : string;
  email : string;
  avatar : string
}.
End CommentUser.

Module PollOption.
Record t := mk {
  id : string;
  text : string;
  imageUrl : string;
  votes : Z;
  votedBy : list string
}.
End PollOption.

Module Comment.
Local Unset Elimination Schemes.
Inductive t :=
| mk (id : string) (user : CommentUser.t) (text : string)
     (audio_url : option string) (timestamp : string) (likes : Z)
     (replies : list t) (flaggedForReview : bool)
     (reviewReason : option string).
Local Set Elimination Schemes.
End Comment.

Module Poll.
Record t := mk {
  id : string;
  title : string;
  description : string;
  category : string;
  thumbnail : string;
  options : list PollOption.t;
  comments : list Comment.t;
  createdAt : string;
  disableVoiceComments : bool
}.
End Poll.

Module RedemptionRequest.
Record t := mk {
  id : string;
  user : CommentUser.t;
  amount : Z;
  paymentDetails : string;
  status : string;
  requestedAt : string;
  updatedAt : option string;
  adminNotes : option string
}.
End RedemptionRequest.

Module GameResult.
Record t := mk {
  id : string;
  user : CommentUser.t;
  targetTime : float;
  actualTime : float;
  accuracy : float;
  coinsWon : Z;
  playedAt : string
}.
End GameResult.

Module AdsStats.
Record t := mk {
  userId : string;
  date : string;
  watched : Z;
  coins : Z
}.
End AdsStats.

Module RewardBody.
Record t := mk {
  userId : string;
  amount : Z
}.
End RewardBody.

Module ApplyReferralBody.
Record t := mk {
  referralCode : string;
  joinerUserId : string
}.
End ApplyReferralBody.

Module ReferralRewardsBody.
Record t := mk {
  referrerCoins : Z;
  refereeCoins : Z
}.
End ReferralRewardsBody.

(** What a handler returns. *)
Inductive response :=
| RPoll (p : Poll.t)
| RUser (u : User.t)
| RAdsReward (user : User.t) (stats : AdsStats.t)
| RReferral (referrer referee : User.t)
| RCoins (coins : Z)
| RRedemptionRequest (r : RedemptionRequest.t)
| RGameResult (g : GameResult.t)
| RSuccess.
(** ** The handlers *)

Section handlers.
Context `{PyLib}.

Definition db_to_user (id : string) (user_db : UserDB.t) : User.t :=
  User.mk id
    (UserDB.name user_db)
    (UserDB.email user_db)
    (UserDB.password user_db)
    (UserDB.avatar user_db)
    (UserDB.isAdmin user_db)
    (UserDB.coins user_db)
    (UserDB.dailyAttempts user_db)
    (isoformat (UserDB.lastAttemptDate user_db))
    (UserDB.isBanned user_db)
    (UserDB.mobile user_db)
    (UserDB.gender user_db)
    (UserDB.bio user_db)
    (UserDB.specializations user_db)
    (UserDB.referralCode user_db)
    (UserDB.referredBy user_db).

Definition db_to_option (o : string * PollOptionDB.t) : PollOption.t :=
  PollOption.mk o.1 (PollOptionDB.text o.2) (PollOptionDB.imageUrl o.2)
    (PollOptionDB.votes o.2) (PollOptionDB.votedBy o.2).

(** [poll_db.options]: the rows of [poll_options] that point to the poll, in
    the order of their insertion. *)
Definition options_of (poll_id : string) (db : DB)
  : list (string * PollOptionDB.t) :=
  filter (λ o, PollOptionDB.poll_id o.2 = poll_id)
         (in_rowid_order PollOptionDB.rowid (poll_options db)).

Definition comment_user (id : string) (user_db : UserDB.t) : CommentUser.t :=
  CommentUser.mk id (UserDB.name user_db) (UserDB.email user_db)
    (UserDB.avatar user_db).

(** [db.query(CommentDB).filter(CommentDB.poll_id == poll_id,
    CommentDB.parent_id == None).all()] *)
Definition top_comments (poll_id : string) (db : DB)
  : list (string * CommentDB.t) :=
  filter (λ c, CommentDB.poll_id c.2 = Some poll_id
               ∧ CommentDB.parent_id c.2 = None)
         (in_rowid_order CommentDB.rowid (comments db)).

(** [db.query(CommentDB).filter(CommentDB.parent_id == id).all()] *)
Definition replies_of (id : string) (db : DB) : list (string * CommentDB.t) :=
  filter (λ c, CommentDB.parent_id c.2 = Some id)
         (in_rowid_order CommentDB.rowid (comments db)).

(** [build_comments] of [db_to_poll], with [depth] nested calls left.
    [comment_db.user] is [None] when no user has the comment's [user_id];
    reading its [id] then raises [AttributeError]. *)
Fixpoint build_comments (depth : nat) (db : DB) (c : string * CommentDB.t)
  : result Comment.t :=
  match depth with
  | O => Raise RecursionError
  | S depth =>
      user_db ← or_raise (users db !! CommentDB.user_id c.2) AttributeError;
      let user := comment_user (CommentDB.user_id c.2) user_db in
      replies ← result_map (build_comments depth db) (replies_of c.1 db);
      Ok (Comment.mk c.1 user (CommentDB.text c.2) (CommentDB.audio_url c.2)
            (isoformat (CommentDB.timestamp c.2)) (CommentDB.likes c.2)
            replies (CommentDB.flaggedForReview c.2)
            (CommentDB.reviewReason c.2))
  end.

Definition db_to_poll (poll_id : string) (poll_db : PollDB.t) (db : DB)
  : result Poll.t :=
  let options := db_to_option <$> options_of poll_id db in
  comments ← result_map (build_comments recursion_depth db)
               (top_comments poll_id db);
  Ok (Poll.mk poll_id
        (PollDB.title poll_db)
        (PollDB.description poll_db)
        (PollDB.category poll_db)
        (PollDB.thumbnail poll_db)
        options comments
        (isoformat (PollDB.createdAt poll_db))
        (PollDB.disableVoiceComments poll_db)).

(** [db.query(PollOptionDB).filter(PollOptionDB.id == option_id,
    PollOptionDB.poll_id == poll_id).first()] *)
Definition query_option (option_id poll_id : string) (db : DB)
  : option PollOptionDB.t :=
  match poll_options db !! option_id with
  | Some opt_db =>
      if decide (PollOptionDB.poll_id opt_db = poll_id) then Some opt_db
      else None
  | None => None
  end.

(** POST /polls/{poll_id}/vote.  The poll is rendered after the commit, on
    the early return before any change. *)
Definition add_vote (poll_id option_id user_id : string) (db : DB)
  : result (DB * result response) :=
  poll_db ← or_raise (polls db !! poll_id)
              (HTTPException 404 "Poll not found");
  opt_db ← or_raise (query_option option_id poll_id db)
             (HTTPException 404 "Option not found");
  let votedBy := PollOptionDB.votedBy opt_db in
  if bool_decide (user_id ∈ votedBy) then
    Ok (db, RPoll <$> db_to_poll poll_id poll_db db)
  else
    let votedBy := votedBy ++ [user_id] in
    let opt_db :=
      PollOptionDB.mk (PollOptionDB.poll_id opt_db) (PollOptionDB.text opt_db)
        (PollOptionDB.imageUrl opt_db) (PollOptionDB.votes opt_db + 1)
        votedBy (PollOptionDB.rowid opt_db) in
    _ ← sqlite_ints [PollOptionDB.votes opt_db];
    let db := set_poll_options (<[option_id := opt_db]> (poll_options db)) db in
    db ←
      match users db !! user_id with
      | Some user_db =>
          let before := or0 (UserDB.coins user_db) in
          let after := before + 1 in
          _ ← sqlite_ints [after];
          Ok (set_users (<[user_id := UserDB.set_coins after user_db]>
                           (users db)) db)
      | None => Ok db
      end;
    Ok (db, RPoll <$> db_to_poll poll_id poll_db db).

Definition today_ist_date_str (now : datetime) : string := strftime_Ymd now.

(** [db.query(AdsStatsDB).filter(AdsStatsDB.user_id == user_id,
    AdsStatsDB.date == date_str).first()], with the position of the row. *)
Definition query_ads_stats (user_id date_str : string)
    (rows : list AdsStatsDB.t) : option (nat * AdsStatsDB.t) :=
  list_find (λ row, AdsStatsDB.user_id row = user_id
                    ∧ AdsStatsDB.date row = date_str) rows.

(** POST /ads/reward; [now] is the clock reading of [datetime.now(IST)].
    The [try] around the writes turns the [OverflowError] of the commit into
    a rollback and status 500; the row of the answer is read again after the
    commit. *)
Definition post_ads_reward (body : RewardBody.t) (now : datetime) (db : DB)
  : result (DB * result response) :=
  let userId := RewardBody.userId body in
  user_db ← or_raise (users db !! userId)
              (HTTPException 404 "User not found");
  let date_str := today_ist_date_str now in
  let before := or0 (UserDB.coins user_db) in
  let grant := Z.max 0 (or0 (RewardBody.amount body)) in
  let user_db := UserDB.set_coins (before + grant) user_db in
  let seen := if bool_decide (grant > 0) then 1 else 0 in
  let row :=
    match query_ads_stats userId date_str (ads_stats db) with
    | None => AdsStatsDB.mk userId date_str seen grant
    | Some (_, row) =>
        AdsStatsDB.mk (AdsStatsDB.user_id row) (AdsStatsDB.date row)
          (or0 (AdsStatsDB.watched row) + seen)
          (or0 (AdsStatsDB.coins row) + grant)
    end in
  let rows :=
    match query_ads_stats userId date_str (ads_stats db) with
    | None => ads_stats db ++ [row]
    | Some (i, _) => <[i := row]> (ads_stats db)
    end in
  match sqlite_ints [UserDB.coins user_db; AdsStatsDB.watched row;
                     AdsStatsDB.coins row] with
  | Raise _ =>
      Raise (HTTPException 500
               ("Failed to grant reward: " +:+ overflow_message))
  | Ok _ =>
      let db :=
        set_ads_stats rows (set_users (<[userId := user_db]> (users db)) db) in
      Ok (db,
          row ← or_raise (query_ads_stats userId date_str (ads_stats db))
                  AttributeError;
          Ok (RAdsReward (db_to_user userId user_db)
                (AdsStats.mk userId date_str (AdsStatsDB.watched row.2)
                             (AdsStatsDB.coins row.2))))
  end.

(** Settings helpers *)
Definition get_setting (db : DB) (key : string) (default : option string)
  : option string :=
  match settings db !! key with
  | Some value => Some value
  | None => default
  end.

Definition set_setting (key value : string) (db : DB) : DB :=
  set_settings (<[key := value]> (settings db)) db.

(** GET /settings/referral-rewards; the returned dict is the record with its
    two keys. *)
Definition get_referral_rewards (db : DB) : ReferralRewardsBody.t :=
  let referrer := get_setting db "referralReferrerCoins" (Some "15") in
  let referee := get_setting db "referralRefereeCoins" (Some "5") in
  let referrer_i :=
    match referrer with
    | Some s => match int_of_str s with Some n => n | None => 15 end
    | None => 15
    end in
  let referee_i :=
    match referee with
    | Some s => match int_of_str s with Some n => n | None => 5 end
    | None => 5
    end in
  ReferralRewardsBody.mk referrer_i referee_i.

(** PUT /settings/coin-value *)
Definition put_coin_value (coinValueINR : float) (db : DB)
  : result (DB * response) :=
  Ok (set_setting "coinValueINR" (float_str coinValueINR) db, RSuccess).

(** PUT /settings/referral-rewards *)
Definition put_referral_rewards (body : ReferralRewardsBody.t) (db : DB)
  : result (DB * response) :=
  let db := set_setting "referralReferrerCoins"
              (str (ReferralRewardsBody.referrerCoins body)) db in
  let db := set_setting "referralRefereeCoins"
              (str (ReferralRewardsBody.refereeCoins body)) db in
  Ok (db, RSuccess).

(** [db.query(UserDB).filter(UserDB.referralCode == code).first()] *)
Definition query_user_by_referralCode (code : string) (db : DB)
  : option (string * UserDB.t) :=
  snd <$> list_find (λ u, UserDB.referralCode u.2 = Some code)
                    (map_to_list (users db)).

(** POST /referral/apply.  The [try] around the writes turns the
    [OverflowError] of the commit into a rollback and status 500. *)
Definition apply_referral (body : ApplyReferralBody.t) (db : DB)
  : result (DB * response) :=
  let joiner_id := ApplyReferralBody.joinerUserId body in
  joiner ← or_raise (users db !! joiner_id)
             (HTTPException 404 "Joiner user not found");
  _ ← raise_if (truthy (UserDB.referredBy joiner))
        (HTTPException 400 "Referral already applied for this user");
  r ← or_raise (query_user_by_referralCode
                  (ApplyReferralBody.referralCode body) db)
        (HTTPException 404 "Invalid referral code");
  let referrer_id := r.1 in
  let referrer := r.2 in
  _ ← raise_if (bool_decide (referrer_id = joiner_id))
        (HTTPException 400 "Cannot refer yourself");
  let rewards := get_referral_rewards db in
  let referrer_reward := ReferralRewardsBody.referrerCoins rewards in
  let referee_reward := ReferralRewardsBody.refereeCoins rewards in
  let joiner :=
    UserDB.set_referredBy (Some referrer_id)
      (UserDB.set_coins (or0 (UserDB.coins joiner) + referee_reward) joiner) in
  let referrer :=
    UserDB.set_coins (or0 (UserDB.coins referrer) + referrer_reward) referrer in
  match sqlite_ints [UserDB.coins joiner; UserDB.coins referrer] with
  | Raise _ =>
      Raise (HTTPException 500
               ("Failed to apply referral: " +:+ overflow_message))
  | Ok _ =>
      let db :=
        set_users (<[referrer_id := referrer]>
                     (<[joiner_id := joiner]> (users db))) db in
      Ok (db, RReferral (db_to_user referrer_id referrer)
                        (db_to_user joiner_id joiner))
  end.

(** [db.query(UserDB).filter(UserDB.email == email).first()] *)
Definition query_user_by_email (email : string) (db : DB)
  : option (string * UserDB.t) :=
  snd <$> list_find (λ u, UserDB.email u.2 = email) (map_to_list (users db)).

(** The UNIQUE constraints of [users], as the commit checks them for the row
    [id]: another row has the same [email], or the same non-NULL
    [referralCode]. *)
Definition unique_violated (id : string) (user_db : UserDB.t) (db : DB)
  : bool :=
  bool_decide
    (Exists (λ u, u.1 ≠ id
                  ∧ (UserDB.email u.2 = UserDB.email user_db
                     ∨ (UserDB.referralCode u.2 = UserDB.referralCode user_db
                        ∧ UserDB.referralCode user_db ≠ None)))
            (map_to_list (users db))).

(** [json.dumps(l) if l else None] *)
Definition dumps_if (l : option (list string)) : option (list string) :=
  match l with
  | Some (x :: l') => Some (x :: l')
  | _ => None
  end.

(** POST /signup.  At the commit the integers of the row are bound before
    the INSERT runs, so an [OverflowError] comes before an
    [IntegrityError]. *)
Definition signup (user : User.t) (db : DB) : result (DB * response) :=
  _ ← raise_if (bool_decide (is_Some (query_user_by_email (User.email user) db)))
        (HTTPException 400 "Email already exists");
  lastAttemptDate ← or_raise (date_parser_parse (User.lastAttemptDate user))
                      ParserError;
  let user_db :=
    UserDB.mk (User.name user) (User.email user) (User.password user)
      (User.avatar user) (User.isAdmin user) (User.coins user)
      (User.dailyAttempts user) lastAttemptDate (User.isBanned user) None
      (User.mobile user) (User.gender user) (User.bio user)
      (dumps_if (User.specializations user)) (User.referralCode user)
      (User.referredBy user) in
  _ ← sqlite_ints [UserDB.coins user_db; UserDB.dailyAttempts user_db];
  _ ← raise_if (bool_decide (is_Some (users db !! User.id user)))
        IntegrityError;
  _ ← raise_if (unique_violated (User.id user) user_db db) IntegrityError;
  Ok (set_users (<[User.id user := user_db]> (users db)) db,
      RUser (db_to_user (User.id user) user_db)).

(** POST /users/{user_id}/coins/increment; [amount] is declared
    [Query(1, ge=1)], so FastAPI rejects a smaller one before the body
    runs. *)
Definition increment_user_coins (user_id : string) (amount : Z) (db : DB)
  : result (DB * response) :=
  _ ← raise_if (bool_decide (amount < 1)) RequestValidationError;
  user_db ← or_raise (users db !! user_id)
              (HTTPException 404 "User not found");
  let before := or0 (UserDB.coins user_db) in
  let after := before + amount in
  _ ← sqlite_ints [after];
  Ok (set_users (<[user_id := UserDB.set_coins after user_db]> (users db)) db,
      RCoins after).

(** POST /users/{user_id}/coins/decrement *)
Definition decrement_user_coins (user_id : string) (amount : Z) (db : DB)
  : result (DB * response) :=
  _ ← raise_if (bool_decide (amount < 1)) RequestValidationError;
  user_db ← or_raise (users db !! user_id)
              (HTTPException 404 "User not found");
  let before := or0 (UserDB.coins user_db) in
  _ ← raise_if (bool_decide (before < amount))
        (HTTPException 400
           ("Insufficient coins. Current: " +:+ str before
            +:+ ", required: " +:+ str amount));
  let after := before - amount in
  _ ← sqlite_ints [after];
  Ok (set_users (<[user_id := UserDB.set_coins after user_db]> (users db)) db,
      RCoins after).

(** PUT /users/{user_id}: every column but [coins] (and [lastSeen]) is
    taken from the payload. *)
Definition update_user (user_id : string) (user : User.t) (db : DB)
  : result (DB * response) :=
  user_db ← or_raise (users db !! user_id)
              (HTTPException 404 "User not found");
  lastAttemptDate ← or_raise (date_parser_parse (User.lastAttemptDate user))
                      ParserError;
  let user_db :=
    UserDB.mk (User.name user) (User.email user) (User.password user)
      (User.avatar user) (User.isAdmin user) (UserDB.coins user_db)
      (User.dailyAttempts user) lastAttemptDate (User.isBanned user)
      (UserDB.lastSeen user_db)
      (User.mobile user) (User.gender user) (User.bio user)
      (dumps_if (User.specializations user)) (User.referralCode user)
      (User.referredBy user) in
  _ ← sqlite_ints [UserDB.dailyAttempts user_db];
  _ ← raise_if (unique_violated user_id user_db db) IntegrityError;
  Ok (set_users (<[user_id := user_db]> (users db)) db,
      RUser (db_to_user user_id user_db)).

Definition db_to_redemption_request (id : string)
    (request_db : RedemptionRequestDB.t) (user : CommentUser.t)
  : RedemptionRequest.t :=
  RedemptionRequest.mk id user
    (RedemptionRequestDB.amount request_db)
    (RedemptionRequestDB.paymentDetails request_db)
    (RedemptionRequestDB.status request_db)
    (isoformat (RedemptionRequestDB.requestedAt request_db))
    (isoformat <$> RedemptionRequestDB.updatedAt request_db)
    (RedemptionRequestDB.adminNotes request_db).

(** POST /redemption-requests *)
Definition add_redemption_request (request : RedemptionRequest.t) (db : DB)
  : result (DB * response) :=
  let id := RedemptionRequest.id request in
  let user_id := CommentUser.id (RedemptionRequest.user request) in
  requestedAt ← or_raise
                  (date_parser_parse (RedemptionRequest.requestedAt request))
                  ParserError;
  updatedAt ←
    (if truthy (RedemptionRequest.updatedAt request) then
       match RedemptionRequest.updatedAt request with
       | Some s => d ← or_raise (date_parser_parse s) ParserError; Ok (Some d)
       | None => Ok None
       end
     else Ok None);
  let request_db :=
    RedemptionRequestDB.mk user_id
      (RedemptionRequest.amount request)
      (RedemptionRequest.paymentDetails request)
      (RedemptionRequest.status request)
      requestedAt updatedAt
      (RedemptionRequest.adminNotes request)
      (next_rowid RedemptionRequestDB.rowid (redemption_requests db)) in
  _ ← sqlite_ints [RedemptionRequestDB.amount request_db];
  _ ← raise_if (bool_decide (is_Some (redemption_requests db !! id)))
        IntegrityError;
  let db :=
    set_redemption_requests (<[id := request_db]> (redemption_requests db))
                            db in
  match users db !! user_id with
  | Some user_db =>
      Ok (db, RRedemptionRequest
                (db_to_redemption_request id request_db
                   (comment_user user_id user_db)))
  | None => Ok (db, RRedemptionRequest request)
  end.

(** PUT /redemption-requests/{request_id}; [request_data] is the
    [Dict[str, str]] of the body, [now] the reading of
    [datetime.now(IST)]. *)
Definition update_redemption_request_status (request_id : string)
    (request_data : gmap string string) (now : datetime) (db : DB)
  : result (DB * response) :=
  request_db ← or_raise (redemption_requests db !! request_id)
                 (HTTPException 404 "Request not found");
  let user_id := RedemptionRequestDB.user_id request_db in
  let amount := RedemptionRequestDB.amount request_db in
  _ ← or_raise (users db !! user_id)
        (HTTPException 404 "User not found for this request");
  let new_status :=
    default (RedemptionRequestDB.status request_db)
            (request_data !! "status") in
  let old_status := RedemptionRequestDB.status request_db in
  users' ←
    (if bool_decide (new_status = "processed" ∧ old_status ≠ "processed") then
       user_db ← or_raise (users db !! user_id)
                   (HTTPException 404 "User account not found");
       _ ← raise_if (bool_decide (UserDB.coins user_db < amount))
             (HTTPException 400
                ("User does not have enough coins. Current balance: "
                 +:+ str (UserDB.coins user_db)
                 +:+ ", Required: " +:+ str amount));
       _ ← sqlite_ints [UserDB.coins user_db - amount];
       Ok (<[user_id := UserDB.set_coins (UserDB.coins user_db - amount)
                          user_db]> (users db))
     else if bool_decide (old_status = "processed"
                          ∧ new_status ≠ "processed") then
       match users db !! user_id with
       | Some user_db =>
           _ ← sqlite_ints [UserDB.coins user_db + amount];
           Ok (<[user_id := UserDB.set_coins (UserDB.coins user_db + amount)
                              user_db]> (users db))
       | None => Ok (users db)
       end
     else Ok (users db));
  let request_db :=
    RedemptionRequestDB.mk user_id amount
      (RedemptionRequestDB.paymentDetails request_db)
      new_status
      (RedemptionRequestDB.requestedAt request_db)
      (Some now)
      (match request_data !! "adminNotes" with
       | Some notes => Some notes
       | None => RedemptionRequestDB.adminNotes request_db
       end)
      (RedemptionRequestDB.rowid request_db) in
  let db :=
    set_redemption_requests
      (<[request_id := request_db]> (redemption_requests db))
      (set_users users' db) in
  user ← or_raise (users db !! user_id) AttributeError;
  Ok (db, RRedemptionRequest
            (db_to_redemption_request request_id request_db
               (comment_user user_id user))).

(** POST /game-results.  At the commit the user's row is written before the
    result is inserted, and the integers of a statement are bound before it
    runs, so an [OverflowError] comes before an [IntegrityError]. *)
Definition save_game_result (game_result : GameResult.t) (db : DB)
  : result (DB * response) :=
  let user_id := CommentUser.id (GameResult.user game_result) in
  playedAt ← or_raise (date_parser_parse (GameResult.playedAt game_result))
               ParserError;
  let game_result_db :=
    GameResultDB.mk user_id
      (GameResult.targetTime game_result)
      (GameResult.actualTime game_result)
      (GameResult.accuracy game_result)
      (GameResult.coinsWon game_result)
      playedAt in
  users' ←
    (if bool_decide (GameResult.coinsWon game_result > 0) then
       match users db !! user_id with
       | Some user_db =>
           let before := or0 (UserDB.coins user_db) in
           let after := before + GameResult.coinsWon game_result in
           _ ← sqlite_ints [after];
           Ok (<[user_id := UserDB.set_coins after user_db]> (users db))
       | None => Ok (users db)
       end
     else Ok (users db));
  _ ← sqlite_ints [GameResultDB.coinsWon game_result_db];
  _ ← raise_if (bool_decide (is_Some (game_results db
                                       !! GameResult.id game_result)))
        IntegrityError;
  Ok (set_game_results
        (<[GameResult.id game_result := game_result_db]> (game_results db))
        (set_users users' db),
      RGameResult game_result).

(** ** Requests and the session *)

(** The requests that reach the handlers above. *)
Inductive request :=
| AddVote (poll_id option_id user_id : string)
| PostAdsReward (body : RewardBody.t) (now : datetime)
| ApplyReferral (body : ApplyReferralBody.t)
| SaveGameResult (game_result : GameResult.t)
| IncrementUserCoins (user_id : string) (amount : Z)
| DecrementUserCoins (user_id : string) (amount : Z)
| AddRedemptionRequest (r : RedemptionRequest.t)
| UpdateRedemptionRequestStatus (request_id : string)
    (request_data : gmap string string) (now : datetime)
| Signup (user : User.t)
| UpdateUser (user_id : string) (user : User.t)
| PutCoinValue (coinValueINR : float)
| PutReferralRewards (body : ReferralRewardsBody.t).

(** A handler whose answer is ready at the commit. *)
Definition answered (h : DB → result (DB * response))
  : DB → result (DB * result response) :=
  λ db, r ← h db; Ok (r.1, Ok r.2).

Definition handler (req : request) : DB → result (DB * result response) :=
  match req with
  | AddVote poll_id option_id user_id => add_vote poll_id option_id user_id
  | PostAdsReward body now => post_ads_reward body now
  | ApplyReferral body => answered (apply_referral body)
  | SaveGameResult g => answered (save_game_result g)
  | IncrementUserCoins user_id amount =>
      answered (increment_user_coins user_id amount)
  | DecrementUserCoins user_id amount =>
      answered (decrement_user_coins user_id amount)
  | AddRedemptionRequest r => answered (add_redemption_request r)
  | UpdateRedemptionRequestStatus request_id request_data now =>
      answered (update_redemption_request_status request_id request_data now)
  | Signup user => answered (signup user)
  | UpdateUser user_id user => answered (update_user user_id user)
  | PutCoinValue v => answered (put_coin_value v)
  | PutReferralRewards body => answered (put_referral_rewards body)
  end.

(** One request in its session ([get_db]): the database after it, and what
    the caller receives.  An exception raised before the commit leaves the
    database as it was; one raised after it is the answer, with the
    committed database. *)
Definition session (h : DB → result (DB * result response)) (db : DB)
  : DB * result response :=
  match h db with
  | Ok (db', answer) => (db', answer)
  | Raise e => (db, Raise e)
  end.

Definition run (h : DB → result (DB * response)) (db : DB)
  : DB * result response :=
  session (answered h) db.

Definition serve (req : request) (db : DB) : DB * result response :=
  session (handler req) db.

End handlers.
(** ** Observations *)

(** The coin balance of a user, when the user exists. *)
Definition balance (user_id : string) (db : DB) : option Z :=
  UserDB.coins <$> users db !! user_id.

(** Every stored balance is non-negative. *)
Definition balances_nonneg (db : DB) : Prop :=
  map_Forall (λ _ u, 0 ≤ UserDB.coins u) (users db).

(** ** A library instance for running the handlers

    A datetime is written as a decimal number of seconds; the day is the
    number of whole days in it.  Its Unicode database knows no digit and
    no blank outside ASCII, and a hundred nested comments can be built. *)
Definition seconds_lib : PyLib := {|
  date_parser_parse := int_of_ascii;
  isoformat := str;
  strftime_Ymd := λ t, str (t `div` 86400);
  float_str := λ _, "0.0";
  decimal_and_space_to_ascii := λ _, "?";
  recursion_depth := 100
|}.

Definition empty_db : DB := mkDB ∅ ∅ ∅ [] ∅ ∅ ∅ ∅.

Definition alice : User.t :=
  User.mk "u1" "Alice" "alice@example.org" "pw" "a.png" false 0 3 "0" false
          None None None None (Some "ALICE") None.

Definition bob : User.t :=
  User.mk "u2" "Bob" "bob@example.org" "pw" "b.png" false 0 3 "0" false
          None None None None (Some "BOB") None.

Definition poll1 : PollDB.t := PollDB.mk "Tabs or spaces" "" "cat-tech" "" 0 false.

Definition option1 : PollOptionDB.t :=
  PollOptionDB.mk "p1" "Tabs" "" 0 [] 1.

(** Alice and Bob signed up; one poll with one option. *)
Definition demo_db : DB :=
  let db := (serve (H := seconds_lib) (Signup alice) empty_db).1 in
  let db := (serve (H := seconds_lib) (Signup bob) db).1 in
  mkDB (users db) {["p1" := poll1]} {["o1" := option1]} (ads_stats db)
       (redemption_requests db) (game_results db) (settings db)
       (comments db).

(** A run of requests, oldest first. *)
Definition serve_all `{PyLib} (reqs : list request) (db : DB) : DB :=
  foldl (λ db req, (serve req db).1) db reqs.

(** The status a PUT /redemption-requests body asks for:
    [request_data.get("status", request_db.status)]. *)
Definition requested_status (request_data : gmap string string)
    (r : RedemptionRequestDB.t) : string :=
  default (RedemptionRequestDB.status r) (request_data !! "status").

(** A redemption row after the three assignments of the status update. *)
Definition touched (request_data : gmap string string) (now : datetime)
    (r : RedemptionRequestDB.t) : RedemptionRequestDB.t :=
  RedemptionRequestDB.mk
    (RedemptionRequestDB.user_id r)
    (RedemptionRequestDB.amount r)
    (RedemptionRequestDB.paymentDetails r)
    (requested_status request_data r)
    (RedemptionRequestDB.requestedAt r)
    (Some now)
    (match request_data !! "adminNotes" with
     | Some notes => Some notes
     | None => RedemptionRequestDB.adminNotes r
     end)
    (RedemptionRequestDB.rowid r).

(** The option row after a counted vote. *)
Definition voted (user_id : string) (o : PollOptionDB.t) : PollOptionDB.t :=
  PollOptionDB.mk (PollOptionDB.poll_id o) (PollOptionDB.text o)
    (PollOptionDB.imageUrl o) (PollOptionDB.votes o + 1)
    (PollOptionDB.votedBy o ++ [user_id]) (PollOptionDB.rowid o).

(** The database after a counted vote: the option has the vote, and the
    voter, when stored, one more coin. *)
Definition after_vote (option_id user_id : string) (o : PollOptionDB.t)
    (db : DB) : DB :=
  let db :=
    set_poll_options (<[option_id := voted user_id o]> (poll_options db)) db in
  match users db !! user_id with
  | Some u =>
      set_users (<[user_id := UserDB.set_coins (UserDB.coins u + 1) u]>
                   (users db)) db
  | None => db
  end.

(** Inputs that keep balances non-negative: a signup brings a non-negative
    balance,
    the configured referral rewards are non-negative, and a status update of
    a request that is processed has a non-negative amount to refund.  Every
    other request qualifies. *)
Definition nonneg_inputs `{PyLib} (req : request) (db : DB) : Prop :=
  match req with
  | Signup user => 0 ≤ User.coins user
  | ApplyReferral _ =>
      0 ≤ ReferralRewardsBody.referrerCoins (get_referral_rewards db)
      ∧ 0 ≤ ReferralRewardsBody.refereeCoins (get_referral_rewards db)
  | UpdateRedemptionRequestStatus request_id _ _ =>
      ∀ r, redemption_requests db !! request_id = Some r →
           RedemptionRequestDB.status r = "processed" →
           0 ≤ RedemptionRequestDB.amount r
  | _ => True
  end.

(** ** Sample data *)

Definition process : gmap string string := {["status" := "processed"]}.
Definition unprocess : gmap string string := {["status" := "pending"]}.
Definition reject : gmap string string := {["status" := "rejected"]}.

Definition alice_user : CommentUser.t :=
  CommentUser.mk "u1" "Alice" "alice@example.org" "a.png".

(** Alice asks to redeem 6 coins. *)
Definition cashout : RedemptionRequest.t :=
  RedemptionRequest.mk "r1" alice_user 6 "upi" "pending" "100" None None.

Definition cashout_row : RedemptionRequestDB.t :=
  RedemptionRequestDB.mk "u1" 6 "upi" "pending" 100 None None 1.

(** A create whose payload says the request is already processed. *)
Definition cashout_processed : RedemptionRequest.t :=
  RedemptionRequest.mk "r2" alice_user 6 "upi" "processed" "100" None None.

(** Alice's row with a given balance and referrer. *)
Definition alice_row (coins : Z) (referredBy : option string) : UserDB.t :=
  UserDB.mk "Alice" "alice@example.org" "pw" "a.png" false coins 3 0 false
            None None None None None (Some "ALICE") referredBy.

(** Alice voted once and watched one ad for 5 coins, then asked to redeem
    6. *)
Definition funded_db : DB :=
  serve_all (H := seconds_lib)
    [AddVote "p1" "o1" "u1"; PostAdsReward (RewardBody.mk "u1" 5) 1000;
     AddRedemptionRequest cashout] demo_db.

(** Alice asked to redeem 6 with an empty balance. *)
Definition unfunded_db : DB :=
  serve_all (H := seconds_lib) [AddRedemptionRequest cashout] demo_db.

(** Alice voted for the option. *)
Definition voted_db : DB :=
  serve_all (H := seconds_lib) [AddVote "p1" "o1" "u1"] demo_db.

(** Alice applied Bob's referral code. *)
Definition referred_db : DB :=
  serve_all (H := seconds_lib)
    [ApplyReferral (ApplyReferralBody.mk "BOB" "u1")] demo_db.

(** A profile payload for Alice that names another referrer and a large
    balance. *)
Definition alice_rewritten : User.t :=
  User.mk "u1" "Alice" "alice@example.org" "pw" "a.png" false 1000000 3 "0"
          false None None None None (Some "ALICE") (Some "u9").

(** A signup payload with a negative balance. *)
Definition debtor : User.t :=
  User.mk "u3" "Carol" "carol@example.org" "pw" "c.png" false (-5) 3 "0"
          false None None None None None None.

(** A redemption request of Alice stored as processed with a negative
    amount. *)
Definition cashout_negative : RedemptionRequest.t :=
  RedemptionRequest.mk "r3" alice_user (-5) "upi" "processed" "100" None None.

(** A signup payload whose [referredBy] is the empty string. *)
Definition dave : User.t :=
  User.mk "u4" "Dave" "dave@example.org" "pw" "d.png" false 0 3 "0"
          false None None None None None (Some "").

(** ** Further handlers of [app.py]

    The read endpoints, the account endpoints and the poll writers.  A GET
    handler commits nothing: it is a function of the database alone. *)

Module LoginRequest.
Record t := mk {
  email : string;
  password : string
}.
End LoginRequest.

(** The dict POST /login answers: [{"success": False, "message": m}] or
    [{"success": True, "user": u}]. *)
Inductive login_reply :=
| LoginFailure (message : string)
| LoginSuccess (user : User.t).

Section more_handlers.
Context `{PyLib}.

(** GET /ads/stats; [now] is the reading of [datetime.now(IST)]. *)
Definition get_ads_stats (user_id : string) (now : datetime) (db : DB)
  : AdsStats.t :=
  let date_str := today_ist_date_str now in
  match query_ads_stats user_id date_str (ads_stats db) with
  | None => AdsStats.mk user_id date_str 0 0
  | Some (_, row) =>
      AdsStats.mk user_id (AdsStatsDB.date row) (AdsStatsDB.watched row)
                  (AdsStatsDB.coins row)
  end.

(** GET /users/{user_id} *)
Definition get_user (user_id : string) (db : DB) : result User.t :=
  user_db ← or_raise (users db !! user_id)
              (HTTPException 404 "User not found");
  Ok (db_to_user user_id user_db).

(** GET /users/{user_id}/coins *)
Definition get_user_coins (user_id : string) (db : DB) : result Z :=
  user_db ← or_raise (users db !! user_id)
              (HTTPException 404 "User not found");
  Ok (UserDB.coins user_db).

(** [db.query(UserDB).filter(UserDB.email == email,
    UserDB.password == password).first()] *)
Definition query_user_by_credentials (email password : string) (db : DB)
  : option (string * UserDB.t) :=
  snd <$> list_find (λ u, UserDB.email u.2 = email
                          ∧ UserDB.password u.2 = password)
                    (map_to_list (users db)).

(** POST /login *)
Definition login (request : LoginRequest.t) (db : DB) : login_reply :=
  match query_user_by_credentials (LoginRequest.email request)
          (LoginRequest.password request) db with
  | None => LoginFailure "Invalid email or password"
  | Some (id, user_db) =>
      if UserDB.isBanned user_db
      then LoginFailure "This account has been banned."
      else LoginSuccess (db_to_user id user_db)
  end.

(** DELETE /users/{user_id}; the answer is the [message].  No model declares
    a relationship from [UserDB] to its dependants and SQLite is opened
    without foreign-key enforcement, so only the row of [users] goes. *)
Definition delete_user (user_id : string) (db : DB) : result (DB * string) :=
  _ ← or_raise (users db !! user_id) (HTTPException 404 "User not found");
  Ok (set_users (delete user_id (users db)) db, "User deleted").

(** [user_db.isBanned = b] *)
Definition set_isBanned (b : bool) (user_db : UserDB.t) : UserDB.t :=
  UserDB.mk (UserDB.name user_db) (UserDB.email user_db)
    (UserDB.password user_db) (UserDB.avatar user_db)
    (UserDB.isAdmin user_db) (UserDB.coins user_db)
    (UserDB.dailyAttempts user_db) (UserDB.lastAttemptDate user_db) b
    (UserDB.lastSeen user_db) (UserDB.mobile user_db)
    (UserDB.gender user_db) (UserDB.bio user_db)
    (UserDB.specializations user_db) (UserDB.referralCode user_db)
    (UserDB.referredBy user_db).

(** POST /users/{user_id}/ban *)
Definition ban_user (user_id : string) (db : DB) : result (DB * response) :=
  user_db ← or_raise (users db !! user_id)
              (HTTPException 404 "User not found");
  let user_db := set_isBanned true user_db in
  Ok (set_users (<[user_id := user_db]> (users db)) db,
      RUser (db_to_user user_id user_db)).

(** POST /users/{user_id}/toggle-ban *)
Definition toggle_user_ban (user_id : string) (db : DB)
  : result (DB * response) :=
  user_db ← or_raise (users db !! user_id)
              (HTTPException 404 "User not found");
  let user_db := set_isBanned (negb (UserDB.isBanned user_db)) user_db in
  Ok (set_users (<[user_id := user_db]> (users db)) db,
      RUser (db_to_user user_id user_db)).

(** GET /redemption-requests: the requests whose owner exists, in the
    order of their insertion; one whose owner is missing is skipped. *)
Definition get_redemption_requests (db : DB) : list RedemptionRequest.t :=
  omap (λ req,
          match users db !! RedemptionRequestDB.user_id req.2 with
          | Some user_db =>
              Some (db_to_redemption_request req.1 req.2
                      (comment_user (RedemptionRequestDB.user_id req.2)
                                    user_db))
          | None => None
          end)
       (in_rowid_order RedemptionRequestDB.rowid (redemption_requests db)).

(** GET /polls/{poll_id} *)
Definition get_poll (poll_id : string) (db : DB) : result Poll.t :=
  poll_db ← or_raise (polls db !! poll_id)
              (HTTPException 404 "Poll not found");
  db_to_poll poll_id poll_db db.

(** The row [add_poll] builds for an option of the payload. *)
Definition option_row (poll_id : string) (opt : PollOption.t) (rowid : N)
  : PollOptionDB.t :=
  PollOptionDB.mk poll_id (PollOption.text opt) (PollOption.imageUrl opt)
    (PollOption.votes opt) (PollOption.votedBy opt) rowid.

(** [for opt in poll.options: db.add(PollOptionDB(id=opt.id, ...))], as the
    commit inserts the rows one after the other: the votes of a row are
    bound (a value beyond 64 bits is an [OverflowError]), then the row is
    inserted (an [id] already in the table, or twice in the payload, is an
    [IntegrityError]). *)
Fixpoint add_options (poll_id : string) (opts : list PollOption.t)
    (table : gmap string PollOptionDB.t)
  : result (gmap string PollOptionDB.t) :=
  match opts with
  | [] => Ok table
  | opt :: opts' =>
      _ ← sqlite_ints [PollOption.votes opt];
      _ ← raise_if (bool_decide (is_Some (table !! PollOption.id opt)))
            IntegrityError;
      add_options poll_id opts'
        (<[PollOption.id opt :=
             option_row poll_id opt (next_rowid PollOptionDB.rowid table)]>
           table)
  end.

(** POST /polls (the [comments] of the payload are not stored) *)
Definition add_poll (poll : Poll.t) (db : DB) : result (DB * response) :=
  createdAt ← or_raise (date_parser_parse (Poll.createdAt poll)) ParserError;
  let poll_db :=
    PollDB.mk (Poll.title poll) (Poll.description poll) (Poll.category poll)
      (Poll.thumbnail poll) createdAt (Poll.disableVoiceComments poll) in
  _ ← raise_if (bool_decide (is_Some (polls db !! Poll.id poll)))
        IntegrityError;
  table ← add_options (Poll.id poll) (Poll.options poll) (poll_options db);
  Ok (mkDB (users db) (<[Poll.id poll := poll_db]> (polls db)) table
           (ads_stats db) (redemption_requests db) (game_results db)
           (settings db) (comments db),
      RPoll poll).

(** The loop of [update_poll]: every option of the payload whose [id] is in
    the table, whichever poll it belongs to, takes the payload's text, image,
    votes and voter list. *)
Fixpoint update_options (opts : list PollOption.t)
    (table : gmap string PollOptionDB.t) : gmap string PollOptionDB.t :=
  match opts with
  | [] => table
  | opt :: opts' =>
      let table :=
        match table !! PollOption.id opt with
        | Some opt_db =>
            <[PollOption.id opt :=
                PollOptionDB.mk (PollOptionDB.poll_id opt_db)
                  (PollOption.text opt) (PollOption.imageUrl opt)
                  (PollOption.votes opt) (PollOption.votedBy opt)
                  (PollOptionDB.rowid opt_db)]> table
        | None => table
        end in
      update_options opts' table
  end.

(** The votes the commit of [update_poll] binds: those of the rows the loop
    has rewritten, as the loop left them. *)
Definition written_votes (opts : list PollOption.t)
    (table : gmap string PollOptionDB.t) : list Z :=
  omap (λ opt,
          match table !! PollOption.id opt with
          | Some _ =>
              PollOptionDB.votes
                <$> update_options opts table !! PollOption.id opt
          | None => None
          end) opts.

(** PUT /polls/{poll_id}; the poll is rendered after the commit. *)
Definition update_poll (poll_id : string) (poll : Poll.t) (db : DB)
  : result (DB * result response) :=
  poll_db ← or_raise (polls db !! poll_id)
              (HTTPException 404 "Poll not found");
  let poll_db :=
    PollDB.mk (Poll.title poll) (Poll.description poll) (Poll.category poll)
      (Poll.thumbnail poll) (PollDB.createdAt poll_db)
      (Poll.disableVoiceComments poll) in
  _ ← sqlite_ints (written_votes (Poll.options poll) (poll_options db));
  let db :=
    mkDB (users db) (<[poll_id := poll_db]> (polls db))
         (update_options (Poll.options poll) (poll_options db))
         (ads_stats db) (redemption_requests db) (game_results db)
         (settings db) (comments db) in
  Ok (db, RPoll <$> db_to_poll poll_id poll_db db).

(** A session around a handler with any answer type. *)
Definition run_session {A} (h : DB → result (DB * A)) (db : DB)
  : DB * result A :=
  match h db with
  | Ok (db', a) => (db', Ok a)
  | Raise e => (db, Raise e)
  end.

End more_handlers.

(** The invariant a vote keeps: on every option the count is the length of
    the voter list, and no voter is listed twice. *)
Definition votes_consistent (db : DB) : Prop :=
  map_Forall (λ _ o, PollOptionDB.votes o
                     = Z.of_nat (length (PollOptionDB.votedBy o))
                     ∧ NoDup (PollOptionDB.votedBy o))
             (poll_options db).

(** Bob's row. *)
Definition bob_row (coins : Z) : UserDB.t :=
  UserDB.mk "Bob" "bob@example.org" "pw" "b.png" false coins 3 0 false
            None None None None None (Some "BOB") None.

(** A poll payload with two options. *)
Definition editor_poll : Poll.t :=
  Poll.mk "p2" "Editor" "" "cat-tech" ""
    [PollOption.mk "o2" "vi" "" 0 []; PollOption.mk "o3" "emacs" "" 0 []]
    [] "7" false.

(** A game Alice won 4 coins in. *)
Definition game_won : GameResult.t :=
  GameResult.mk "g1" alice_user 0%float 0%float 0%float 4 "50".

(** The sample request of Alice, processed at time 1. *)
Definition processed_db : DB :=
  serve_all (H := seconds_lib)
    [UpdateRedemptionRequestStatus "r1" process 1] funded_db.

Definition processed_row : RedemptionRequestDB.t :=
  RedemptionRequestDB.mk "u1" 6 "upi" "processed" 100 (Some 1) None 1.

(** A second poll, stored with its two options. *)
Definition two_polls_db : DB :=
  (run (add_poll (H := seconds_lib) editor_poll) demo_db).1.

(** A payload for the second poll that names the option of the first. *)
Definition editor_poll_rewrite : Poll.t :=
  Poll.mk "p2" "Editor" "" "cat-tech" ""
    [PollOption.mk "o1" "Tabs" "" 40 ["x"; "y"]] [] "7" false.

(** Alice commented on the first poll and Bob replied. *)
Definition remark : CommentDB.t :=
  CommentDB.mk (Some "p1") "u1" "Tabs, of course" None 10 0 [] None false
               None 1.

Definition reply : CommentDB.t :=
  CommentDB.mk (Some "p1") "u2" "Spaces" None 11 0 [] (Some "c1") false
               None 2.

Definition discussed_db : DB :=
  mkDB (users demo_db) (polls demo_db) (poll_options demo_db)
       (ads_stats demo_db) (redemption_requests demo_db)
       (game_results demo_db) (settings demo_db)
       {["c1" := remark; "c2" := reply]}.

(** The first poll with a comment whose author is no stored user. *)
Definition stray_remark : CommentDB.t :=
  CommentDB.mk (Some "p1") "ghost" "Neither" None 12 0 [] None false None 1.

Definition orphan_db : DB :=
  mkDB (users demo_db) (polls demo_db) (poll_options demo_db)
       (ads_stats demo_db) (redemption_requests demo_db)
       (game_results demo_db) (settings demo_db)
       {["c9" := stray_remark]}.

(** The first poll as rendered after Alice's vote. *)
Definition voted_poll : Poll.t :=
  Poll.mk "p1" "Tabs or spaces" "" "cat-tech" ""
    [PollOption.mk "o1" "Tabs" "" 1 ["u1"]] [] "0" false.

(** The referrer reward is set to 2^63. *)
Definition greedy_db : DB :=
  serve_all (H := seconds_lib)
    [PutReferralRewards (ReferralRewardsBody.mk 9223372036854775808 5)]
    demo_db.
(** * Properties *)

(** ** Proof steps shared by the handlers *)

Ltac decide_true := rewrite bool_decide_eq_true_2 by (first [done | lia | tauto]).
Ltac decide_false := rewrite bool_decide_eq_false_2 by (first [done | lia | tauto]).

Ltac fits :=
  repeat first
    [ apply Forall_nil_2
    | apply Forall_cons_2; [first [done | unfold int64 in *; lia] |] ].

(** Case analysis along the binds, the tests and the matches of a handler. *)
Ltac crunch :=
  repeat first
    [ progress unfold mbind, result_bind, fmap, result_fmap, or_raise,
        raise_if, sqlite_ints, answered, session in *
    | progress simpl in *
    | progress simplify_eq
    | case_bool_decide
    | case_match ].

Ltac lookup_users :=
  rewrite ?lookup_insert; repeat case_decide; simplify_eq; eauto.

Section properties.
Context `{PyLib}.

Implicit Types (db : DB) (u : UserDB.t) (r : RedemptionRequestDB.t).

(** ** The redemption status update, case by case *)

Lemma sqlite_ints_fit ns : Forall int64 ns → sqlite_ints ns = Ok ().
Proof.
  intros Hns. unfold sqlite_ints, raise_if.
  by rewrite bool_decide_eq_false_2 by tauto.
Qed.

Lemma sqlite_ints_overflow ns :
  ¬ Forall int64 ns → sqlite_ints ns = Raise OverflowError.
Proof.
  intros Hns. unfold sqlite_ints, raise_if.
  by rewrite bool_decide_eq_true_2.
Qed.

Lemma or0_id x : or0 x = x.
Proof. unfold or0. case_decide; congruence. Qed.

Lemma update_status_debit request_id request_data now db r u :
  redemption_requests db !! request_id = Some r →
  users db !! RedemptionRequestDB.user_id r = Some u →
  requested_status request_data r = "processed" →
  RedemptionRequestDB.status r ≠ "processed" →
  RedemptionRequestDB.amount r ≤ UserDB.coins u →
  int64 (UserDB.coins u - RedemptionRequestDB.amount r) →
  ∃ resp,
    serve (UpdateRedemptionRequestStatus request_id request_data now) db
    = (set_redemption_requests
         (<[request_id := touched request_data now r]>
            (redemption_requests db))
         (set_users
            (<[RedemptionRequestDB.user_id r :=
                 UserDB.set_coins
                   (UserDB.coins u - RedemptionRequestDB.amount r) u]>
               (users db)) db),
       Ok resp).
Proof.
  intros Hr Hu Hnew Hold Hle Hfit.
  unfold serve, session, handler, answered,
    update_redemption_request_status.
  fold (requested_status request_data r).
  rewrite Hr. simpl. rewrite Hu. simpl.
  unfold requested_status in *. rewrite Hnew.
  decide_true. simpl. decide_false. simpl.
  rewrite sqlite_ints_fit by fits. simpl.
  rewrite lookup_insert_eq. simpl. eexists. unfold touched, requested_status.
  rewrite Hnew. reflexivity.
Qed.

Lemma update_status_debit_overflow request_id request_data now db r u :
  redemption_requests db !! request_id = Some r →
  users db !! RedemptionRequestDB.user_id r = Some u →
  requested_status request_data r = "processed" →
  RedemptionRequestDB.status r ≠ "processed" →
  RedemptionRequestDB.amount r ≤ UserDB.coins u →
  ¬ int64 (UserDB.coins u - RedemptionRequestDB.amount r) →
  serve (UpdateRedemptionRequestStatus request_id request_data now) db
  = (db, Raise OverflowError).
Proof.
  intros Hr Hu Hnew Hold Hle Hfit.
  unfold serve, session, handler, answered,
    update_redemption_request_status.
  fold (requested_status request_data r).
  rewrite Hr. simpl. rewrite Hu. simpl.
  unfold requested_status in *. rewrite Hnew.
  decide_true. simpl. decide_false. simpl.
  rewrite sqlite_ints_overflow; [done |].
  by intros [? _]%Forall_cons.
Qed.

Lemma update_status_credit request_id request_data now db r u :
  redemption_requests db !! request_id = Some r →
  users db !! RedemptionRequestDB.user_id r = Some u →
  RedemptionRequestDB.status r = "processed" →
  requested_status request_data r ≠ "processed" →
  int64 (UserDB.coins u + RedemptionRequestDB.amount r) →
  ∃ resp,
    serve (UpdateRedemptionRequestStatus request_id request_data now) db
    = (set_redemption_requests
         (<[request_id := touched request_data now r]>
            (redemption_requests db))
         (set_users
            (<[RedemptionRequestDB.user_id r :=
                 UserDB.set_coins
                   (UserDB.coins u + RedemptionRequestDB.amount r) u]>
               (users db)) db),
       Ok resp).
Proof.
  intros Hr Hu Hold Hnew Hfit.
  unfold serve, session, handler, answered,
    update_redemption_request_status.
  rewrite Hr. simpl. rewrite Hu. simpl.
  fold (requested_status request_data r).
  decide_false. decide_true. simpl.
  rewrite sqlite_ints_fit by fits. simpl.
  rewrite lookup_insert_eq. simpl. eexists. reflexivity.
Qed.

Lemma update_status_neutral request_id request_data now db r u :
  redemption_requests db !! request_id = Some r →
  users db !! RedemptionRequestDB.user_id r = Some u →
  (RedemptionRequestDB.status r = "processed"
   ↔ requested_status request_data r = "processed") →
  ∃ resp,
    serve (UpdateRedemptionRequestStatus request_id request_data now) db
    = (set_redemption_requests
         (<[request_id := touched request_data now r]>
            (redemption_requests db)) db,
       Ok resp).
Proof.
  intros Hr Hu Hiff.
  unfold serve, session, handler, answered,
    update_redemption_request_status.
  rewrite Hr. simpl. rewrite Hu. simpl.
  fold (requested_status request_data r).
  decide_false. decide_false. simpl.
  rewrite Hu. simpl. eexists. destruct db; reflexivity.
Qed.

Lemma update_status_insufficient request_id request_data now db r u :
  redemption_requests db !! request_id = Some r →
  users db !! RedemptionRequestDB.user_id r = Some u →
  requested_status request_data r = "processed" →
  RedemptionRequestDB.status r ≠ "processed" →
  UserDB.coins u < RedemptionRequestDB.amount r →
  serve (UpdateRedemptionRequestStatus request_id request_data now) db
  = (db,
     Raise (HTTPException 400
              ("User does not have enough coins. Current balance: "
               +:+ str (UserDB.coins u) +:+ ", Required: "
               +:+ str (RedemptionRequestDB.amount r)))).
Proof.
  intros Hr Hu Hnew Hold Hlt.
  unfold serve, session, handler, answered,
    update_redemption_request_status.
  rewrite Hr. simpl. rewrite Hu. simpl.
  fold (requested_status request_data r).
  decide_true. simpl. decide_true. reflexivity.
Qed.

Lemma update_status_not_found request_id request_data now db :
  redemption_requests db !! request_id = None
  ∨ (∃ r, redemption_requests db !! request_id = Some r
          ∧ users db !! RedemptionRequestDB.user_id r = None) →
  (serve (UpdateRedemptionRequestStatus request_id request_data now) db).1
  = db.
Proof.
  unfold serve, session, handler, answered,
    update_redemption_request_status.
  intros [Hr | (r & Hr & Hu)]; rewrite Hr; simpl; [done |].
  rewrite Hu. reflexivity.
Qed.

(** ** Redemption workflow *)

(** C1. Toggling a pending request of an existing user whose balance covers
    the amount through processed, pending, processed, the balance before and
    the balance after the debit both being 64-bit values: every update
    succeeds; the owner's balance is debited by [amount], credited by
    [amount], and debited by [amount] again, so the net change is
    [- amount]. *)
Theorem redemption_toggle_net_debit
    request_id (d1 d2 d3 : gmap string string) t1 t2 t3 db r u :
  redemption_requests db !! request_id = Some r →
  RedemptionRequestDB.status r = "pending" →
  users db !! RedemptionRequestDB.user_id r = Some u →
  RedemptionRequestDB.amount r ≤ UserDB.coins u →
  int64 (UserDB.coins u) →
  int64 (UserDB.coins u - RedemptionRequestDB.amount r) →
  d1 !! "status" = Some "processed" →
  d2 !! "status" = Some "pending" →
  d3 !! "status" = Some "processed" →
  ∃ db1 db2 db3 resp1 resp2 resp3,
    serve (UpdateRedemptionRequestStatus request_id d1 t1) db
      = (db1, Ok resp1)
    ∧ serve (UpdateRedemptionRequestStatus request_id d2 t2) db1
      = (db2, Ok resp2)
    ∧ serve (UpdateRedemptionRequestStatus request_id d3 t3) db2
      = (db3, Ok resp3)
    ∧ balance (RedemptionRequestDB.user_id r) db1
      = Some (UserDB.coins u - RedemptionRequestDB.amount r)
    ∧ balance (RedemptionRequestDB.user_id r) db2
      = Some (UserDB.coins u - RedemptionRequestDB.amount r
              + RedemptionRequestDB.amount r)
    ∧ balance (RedemptionRequestDB.user_id r) db3
      = Some (UserDB.coins u - RedemptionRequestDB.amount r
              + RedemptionRequestDB.amount r - RedemptionRequestDB.amount r)
    ∧ balance (RedemptionRequestDB.user_id r) db3
      = Some (UserDB.coins u - RedemptionRequestDB.amount r).
Proof.
  intros Hr Hst Hu Hle Hfit Hfit' H1 H2 H3.
  set (uid := RedemptionRequestDB.user_id r).
  set (a := RedemptionRequestDB.amount r).
  (* first update: pending to processed, a debit *)
  destruct (update_status_debit request_id d1 t1 db r u) as [resp1 E1];
    [done | done | by unfold requested_status; rewrite H1
    | by rewrite Hst | done | done |].
  set (r1 := touched d1 t1 r) in E1.
  set (u1 := UserDB.set_coins (UserDB.coins u - a) u) in E1.
  set (db1 := set_redemption_requests _ _) in E1.
  assert (Hr1 : redemption_requests db1 !! request_id = Some r1)
    by apply lookup_insert_eq.
  assert (Hu1 : users db1 !! RedemptionRequestDB.user_id r1 = Some u1)
    by apply lookup_insert_eq.
  assert (Hs1 : RedemptionRequestDB.status r1 = "processed")
    by (simpl; unfold requested_status; by rewrite H1).
  (* second update: processed to pending, a credit *)
  destruct (update_status_credit request_id d2 t2 db1 r1 u1) as [resp2 E2];
    [done | done | done | by unfold requested_status; rewrite H2
    | simpl; fold a; unfold int64 in *; lia |].
  set (r2 := touched d2 t2 r1) in E2.
  set (u2 := UserDB.set_coins _ u1) in E2.
  set (db2 := set_redemption_requests _ _) in E2.
  assert (Hr2 : redemption_requests db2 !! request_id = Some r2)
    by apply lookup_insert_eq.
  assert (Hu2 : users db2 !! RedemptionRequestDB.user_id r2 = Some u2)
    by apply lookup_insert_eq.
  assert (Hs2 : RedemptionRequestDB.status r2 = "pending")
    by (simpl; unfold requested_status; by rewrite H2).
  (* third update: pending to processed, a debit again *)
  destruct (update_status_debit request_id d3 t3 db2 r2 u2) as [resp3 E3];
    [done | done | by unfold requested_status; rewrite H3
    | by rewrite Hs2 | simpl; fold a; lia
    | simpl; fold a; unfold int64 in *; lia |].
  set (db3 := set_redemption_requests _ _) in E3.
  exists db1, db2, db3, resp1, resp2, resp3.
  split_and!; try done.
  - unfold balance. fold uid. change (RedemptionRequestDB.user_id r1) with uid.
    subst db1. simpl. by rewrite lookup_insert_eq.
  - unfold balance. subst db2. simpl.
    change (RedemptionRequestDB.user_id r1) with uid.
    by rewrite lookup_insert_eq.
  - unfold balance. subst db3. simpl.
    change (RedemptionRequestDB.user_id r2) with uid.
    by rewrite lookup_insert_eq.
  - unfold balance. subst db3. simpl.
    change (RedemptionRequestDB.user_id r2) with uid.
    rewrite lookup_insert_eq. simpl. f_equal. fold a. lia.
Qed.

(** C2. Processing a request that is not yet processed, for an existing
    owner whose balance is below the amount, is refused with status 400,
    and the database, hence the balance, the request's status, notes and
    update time, is exactly as before the call. *)
Theorem process_insufficient_funds
    request_id (request_data : gmap string string) now db r u :
  redemption_requests db !! request_id = Some r →
  RedemptionRequestDB.status r ≠ "processed" →
  users db !! RedemptionRequestDB.user_id r = Some u →
  UserDB.coins u < RedemptionRequestDB.amount r →
  request_data !! "status" = Some "processed" →
  serve (UpdateRedemptionRequestStatus request_id request_data now) db
  = (db,
     Raise (HTTPException 400
              ("User does not have enough coins. Current balance: "
               +:+ str (UserDB.coins u) +:+ ", Required: "
               +:+ str (RedemptionRequestDB.amount r)))).
Proof.
  intros Hr Hold Hu Hlt Hnew.
  apply update_status_insufficient; try done.
  unfold requested_status. by rewrite Hnew.
Qed.

(** C9. A status update in which neither the old nor the new status is
    processed leaves every user, hence every balance, unchanged, and changes
    nothing of the database but the [status], [adminNotes] and [updatedAt]
    of that request: its owner, amount, payment details and request time
    stay, and so does every other row of every table. *)
Theorem status_update_without_crossing
    request_id (request_data : gmap string string) now db r :
  redemption_requests db !! request_id = Some r →
  RedemptionRequestDB.status r ≠ "processed" →
  requested_status request_data r ≠ "processed" →
  ∃ r',
    users (serve (UpdateRedemptionRequestStatus request_id request_data now)
                 db).1 = users db
    ∧ (serve (UpdateRedemptionRequestStatus request_id request_data now)
             db).1
      = set_redemption_requests
          (<[request_id := r']> (redemption_requests db)) db
    ∧ RedemptionRequestDB.user_id r' = RedemptionRequestDB.user_id r
    ∧ RedemptionRequestDB.amount r' = RedemptionRequestDB.amount r
    ∧ RedemptionRequestDB.paymentDetails r'
      = RedemptionRequestDB.paymentDetails r
    ∧ RedemptionRequestDB.requestedAt r' = RedemptionRequestDB.requestedAt r.
Proof.
  intros Hr Hold Hnew.
  destruct (users db !! RedemptionRequestDB.user_id r) as [u|] eqn:Hu.
  - destruct (update_status_neutral request_id request_data now db r u)
      as [resp E]; [done | done | tauto |].
    exists (touched request_data now r). rewrite E. done.
  - exists r. rewrite update_status_not_found by eauto.
    split_and!; try done.
    rewrite insert_id by done. by destruct db.
Qed.

(** C4, as the code has it.  Creating a redemption request performs no
    balance check and no adjustment: the users table is unchanged and no
    [HTTPException] (so no refusal for insufficient funds) is ever raised;
    when the call succeeds the stored row carries the owner, the amount and
    the status of the payload, which is pending when the client sent
    pending. *)
Theorem create_redemption_request_no_balance_effect
    (request : RedemptionRequest.t) db :
  users (serve (AddRedemptionRequest request) db).1 = users db
  ∧ (∀ status_code detail,
       (serve (AddRedemptionRequest request) db).2
       ≠ Raise (HTTPException status_code detail))
  ∧ (∀ resp,
       (serve (AddRedemptionRequest request) db).2 = Ok resp →
       ∃ row,
         redemption_requests (serve (AddRedemptionRequest request) db).1
           !! RedemptionRequest.id request = Some row
         ∧ RedemptionRequestDB.status row = RedemptionRequest.status request
         ∧ RedemptionRequestDB.amount row = RedemptionRequest.amount request
         ∧ RedemptionRequestDB.user_id row
           = CommentUser.id (RedemptionRequest.user request)).
Proof.
  unfold serve, session, handler, answered, add_redemption_request.
  destruct (date_parser_parse (RedemptionRequest.requestedAt request))
    as [t|]; simpl; [| by split_and!].
  set (upd := if truthy _ then _ else _).
  assert (Hupd : (∃ o, upd = Ok o) ∨ upd = Raise ParserError).
  { subst upd. destruct (truthy _); [| by eauto].
    destruct (RedemptionRequest.updatedAt request) as [s|]; [| by eauto].
    destruct (date_parser_parse s); simpl; eauto. }
  destruct Hupd as [[o ->] | ->]; simpl; [| by split_and!].
  unfold sqlite_ints, raise_if.
  repeat case_bool_decide; simpl; try by split_and!.
  destruct (users db !! _); simpl;
    (split_and!; [done | done | intros _ _; eexists;
                  rewrite lookup_insert_eq; by split_and!]).
Qed.


(** ** Votes *)




Lemma add_vote_of_a_voter poll_id option_id user_id db
    (p : PollDB.t) (o : PollOptionDB.t) :
  polls db !! poll_id = Some p →
  poll_options db !! option_id = Some o →
  PollOptionDB.poll_id o = poll_id →
  user_id ∈ PollOptionDB.votedBy o →
  add_vote poll_id option_id user_id db
  = Ok (db, RPoll <$> db_to_poll poll_id p db).
Proof.
  intros Hp Ho Hpid Hin. unfold add_vote, query_option.
  rewrite Hp, Ho. simpl. rewrite decide_True by done. simpl.
  by rewrite bool_decide_eq_true_2.
Qed.

Lemma add_vote_counted poll_id option_id user_id db
    (p : PollDB.t) (o : PollOptionDB.t) :
  polls db !! poll_id = Some p →
  poll_options db !! option_id = Some o →
  PollOptionDB.poll_id o = poll_id →
  user_id ∉ PollOptionDB.votedBy o →
  int64 (PollOptionDB.votes o + 1) →
  (∀ u, users db !! user_id = Some u → int64 (UserDB.coins u + 1)) →
  add_vote poll_id option_id user_id db
  = Ok (after_vote option_id user_id o db,
        RPoll <$> db_to_poll poll_id p (after_vote option_id user_id o db)).
Proof.
  intros Hp Ho Hpid Hnin Hfit Hfit'. unfold add_vote, query_option, after_vote.
  rewrite Hp, Ho. simpl. rewrite decide_True by done. simpl.
  rewrite bool_decide_eq_false_2 by done. simpl.
  rewrite sqlite_ints_fit by fits. simpl.
  destruct (users db !! user_id) as [u|] eqn:Hu; simpl; [| done].
  rewrite or0_id. by rewrite sqlite_ints_fit by (specialize (Hfit' u eq_refl); fits).
Qed.



(** ** Users *)

Lemma query_user_by_referralCode_Some code db k u :
  query_user_by_referralCode code db = Some (k, u) →
  users db !! k = Some u ∧ UserDB.referralCode u = Some code.
Proof.
  unfold query_user_by_referralCode. intros Hq.
  apply fmap_Some in Hq as ([i [k' u']] & Hfind & [= <- <-]).
  apply list_find_Some in Hfind as (Hi & Hcode & _).
  split; [| done].
  apply elem_of_map_to_list. eapply list_elem_of_lookup_2. exact Hi.
Qed.

(** C7. A profile update never carries the balance: whatever the payload
    says (its [coins] included) and whether the update succeeds or raises,
    the user's coin balance after PUT /users/{user_id} is the one before. *)
Theorem update_user_keeps_balance user_id (user : User.t) db u :
  users db !! user_id = Some u →
  balance user_id (serve (UpdateUser user_id user) db).1
  = Some (UserDB.coins u).
Proof.
  intros Hu. unfold balance, serve, session, handler, answered, update_user.
  rewrite Hu. simpl.
  destruct (date_parser_parse _); simpl; [| by rewrite Hu].
  destruct (sqlite_ints _); simpl; [| by rewrite Hu].
  destruct (unique_violated _ _ _); simpl; [by rewrite Hu |].
  by rewrite lookup_insert_eq.
Qed.

Lemma referredBy_kept_by_handler req db user_id u :
  users db !! user_id = Some u →
  truthy (UserDB.referredBy u) = true →
  (∀ user, req ≠ UpdateUser user_id user) →
  ∃ u', users (serve req db).1 !! user_id = Some u'
        ∧ UserDB.referredBy u' = UserDB.referredBy u.
Proof.
  intros Hu Href Hreq.
  destruct req; unfold serve, handler.
  - unfold add_vote. crunch; lookup_users.
  - unfold post_ads_reward. crunch; lookup_users.
  - unfold apply_referral. crunch; eauto.
    all: match goal with
         | Hq : query_user_by_referralCode _ _ = Some ?p |- _ =>
             destruct p as [k x];
             destruct (query_user_by_referralCode_Some _ _ _ _ Hq) as [Hk _]
         end.
    all: simpl in *; lookup_users; congruence.
  - unfold save_game_result. crunch; lookup_users.
  - unfold increment_user_coins. crunch; lookup_users.
  - unfold decrement_user_coins. crunch; lookup_users.
  - unfold add_redemption_request. crunch; lookup_users.
  - unfold update_redemption_request_status. crunch; lookup_users.
  - unfold signup. crunch; eauto.
    lookup_users.
    match goal with Hn : ¬ is_Some _ |- _ => destruct Hn; eauto end.
  - unfold update_user. crunch; eauto.
    lookup_users. by destruct (Hreq user).
  - unfold put_coin_value. crunch; eauto.
  - unfold put_referral_rewards. crunch; eauto.
Qed.

(** C6, as the code has it.  For a user whose [referredBy] is a non-empty
    string, a referral application for that user is refused with status 400
    and changes nothing, and no request other than a profile update of that
    user changes the user's [referredBy]. *)
Theorem referredBy_kept_except_by_profile_update req db user_id u :
  users db !! user_id = Some u →
  truthy (UserDB.referredBy u) = true →
  (∀ code,
     serve (ApplyReferral (ApplyReferralBody.mk code user_id)) db
     = (db, Raise (HTTPException 400
                     "Referral already applied for this user")))
  ∧ ((∀ user, req ≠ UpdateUser user_id user) →
     ∃ u', users (serve req db).1 !! user_id = Some u'
           ∧ UserDB.referredBy u' = UserDB.referredBy u).
Proof.
  intros Hu Href. split.
  - intros code. unfold serve, session, handler, answered, apply_referral.
    simpl. rewrite Hu. simpl. by rewrite Href.
  - intros Hreq. by apply referredBy_kept_by_handler.
Qed.

(** ** Rewarded ads *)

Lemma query_ads_stats_append user_id date_str rows row :
  query_ads_stats user_id date_str rows = None →
  AdsStatsDB.user_id row = user_id →
  AdsStatsDB.date row = date_str →
  query_ads_stats user_id date_str (rows ++ [row])
  = Some (length rows, row).
Proof.
  unfold query_ads_stats. intros Hnone Hu Hd.
  rewrite list_find_app_r by done. simpl.
  by rewrite decide_True.
Qed.

Lemma query_ads_stats_update user_id date_str rows i row row' :
  query_ads_stats user_id date_str rows = Some (i, row) →
  AdsStatsDB.user_id row' = user_id →
  AdsStatsDB.date row' = date_str →
  query_ads_stats user_id date_str (<[i := row']> rows) = Some (i, row').
Proof.
  unfold query_ads_stats. intros Hfind Hu Hd.
  apply list_find_Some in Hfind as (Hi & _ & Hleast).
  apply list_find_insert_Some. right. left.
  split_and!; eauto using lookup_lt_Some.
Qed.

(** C8, as the code has it.  For an existing user, when the new balance and
    the two counters of the day's row are 64-bit values, the ad reward
    succeeds, credits exactly [max 0 amount] to the balance, and upserts the
    row of [ads_stats] for the user and the day of [now]: a new row is
    appended when there is none, else the first one is updated in place; its
    [coins] grow by the grant and its [watched] by 1 when the grant is
    positive and by 0 when the grant is 0.  The response carries the updated
    balance and that row. *)
Theorem ads_reward_credits_and_upserts (body : RewardBody.t) now db u :
  users db !! RewardBody.userId body = Some u →
  int64 (UserDB.coins u + Z.max 0 (RewardBody.amount body)) →
  match query_ads_stats (RewardBody.userId body)
          (today_ist_date_str now) (ads_stats db) with
  | None => int64 (Z.max 0 (RewardBody.amount body))
  | Some (_, row) =>
      int64 (AdsStatsDB.watched row
             + (if bool_decide (0 < RewardBody.amount body) then 1 else 0))
      ∧ int64 (AdsStatsDB.coins row + Z.max 0 (RewardBody.amount body))
  end →
  ∃ db' user stats row',
    serve (PostAdsReward body now) db = (db', Ok (RAdsReward user stats))
    ∧ balance (RewardBody.userId body) db'
      = Some (UserDB.coins u + Z.max 0 (RewardBody.amount body))
    ∧ User.coins user = UserDB.coins u + Z.max 0 (RewardBody.amount body)
    ∧ AdsStatsDB.user_id row' = RewardBody.userId body
    ∧ AdsStatsDB.date row' = today_ist_date_str now
    ∧ match query_ads_stats (RewardBody.userId body)
              (today_ist_date_str now) (ads_stats db) with
      | None =>
          ads_stats db' = ads_stats db ++ [row']
          ∧ AdsStatsDB.watched row'
            = (if bool_decide (0 < RewardBody.amount body) then 1 else 0)
          ∧ AdsStatsDB.coins row' = Z.max 0 (RewardBody.amount body)
      | Some (i, row) =>
          ads_stats db' = <[i := row']> (ads_stats db)
          ∧ AdsStatsDB.watched row'
            = AdsStatsDB.watched row
              + (if bool_decide (0 < RewardBody.amount body) then 1 else 0)
          ∧ AdsStatsDB.coins row'
            = AdsStatsDB.coins row + Z.max 0 (RewardBody.amount body)
      end
    ∧ stats = AdsStats.mk (RewardBody.userId body) (today_ist_date_str now)
                (AdsStatsDB.watched row') (AdsStatsDB.coins row').
Proof.
  intros Hu Hbalance Hrow.
  unfold serve, session, handler, post_ads_reward. rewrite Hu. simpl.
  rewrite !or0_id.
  set (grant := Z.max 0 (RewardBody.amount body)) in *.
  assert (Hseen : (if bool_decide (grant > 0) then 1 else 0)
                  = (if bool_decide (0 < RewardBody.amount body)
                     then 1 else 0)).
  { subst grant. repeat case_bool_decide; lia. }
  rewrite Hseen.
  destruct (query_ads_stats _ _ (ads_stats db)) as [[i row]|] eqn:Hq.
  - pose proof Hq as Hq'.
    apply list_find_Some in Hq' as (_ & [Hru Hrd] & _).
    destruct Hrow as [Hwatched Hcoins].
    simpl. rewrite !or0_id.
    rewrite sqlite_ints_fit by fits. simpl.
    erewrite query_ads_stats_update by (simpl; eauto). simpl.
    eexists _, _, _,
      (AdsStatsDB.mk (AdsStatsDB.user_id row) (AdsStatsDB.date row)
         (AdsStatsDB.watched row
          + (if bool_decide (0 < RewardBody.amount body) then 1 else 0))
         (AdsStatsDB.coins row + grant)).
    split; [reflexivity |].
    unfold balance. simpl. rewrite lookup_insert_eq. simpl.
    split_and!; done.
  - simpl.
    rewrite sqlite_ints_fit
      by (repeat first [apply Forall_cons_2 | apply Forall_nil_2];
          try done; case_bool_decide; unfold int64; lia).
    simpl.
    erewrite query_ads_stats_append by (simpl; eauto). simpl.
    eexists _, _, _,
      (AdsStatsDB.mk (RewardBody.userId body) (today_ist_date_str now)
         (if bool_decide (0 < RewardBody.amount body) then 1 else 0)
         grant).
    split; [reflexivity |].
    unfold balance. simpl. rewrite lookup_insert_eq. simpl.
    split_and!; done.
Qed.

(** ** Non-negative balances *)

Ltac known_balances :=
  repeat match goal with
    | Hnn : balances_nonneg ?db, Hk : users ?db !! ?k = Some ?u |- _ =>
        lazymatch goal with
        | _ : 0 ≤ UserDB.coins u |- _ => fail
        | _ => assert (0 ≤ UserDB.coins u) by exact (Hnn k u Hk)
        end
    end.

Ltac nonneg :=
  known_balances; unfold balances_nonneg in *; simpl in *;
  rewrite ?or0_id in *;
  repeat (apply map_Forall_insert_2; [simpl; rewrite ?or0_id; try lia |]);
  try done.

(** C3, as the code has it.  When every stored balance is non-negative,
    every balance is still non-negative after a vote, an ad reward, a game
    result, a coin increment or decrement, a redemption create, a profile
    update or a settings update; after a signup whose payload has
    [coins >= 0]; after a referral application when both configured
    referral rewards are non-negative; and after a redemption status update
    provided the request, when it is processed, has a non-negative
    amount. *)
Theorem balances_stay_nonneg req db :
  balances_nonneg db →
  nonneg_inputs req db →
  balances_nonneg (serve req db).1.
Proof.
  intros Hnn Hin.
  destruct req; unfold serve, handler.
  - unfold add_vote. crunch; nonneg.
  - unfold post_ads_reward. crunch; nonneg.
  - unfold apply_referral, session, answered. cbv beta.
    destruct Hin as [Hin1 Hin2].
    set (rw := get_referral_rewards db) in *. clearbody rw.
    crunch; try done.
    all: match goal with
         | Hq : query_user_by_referralCode _ _ = Some ?p |- _ =>
             destruct p as [k x];
             destruct (query_user_by_referralCode_Some _ _ _ _ Hq) as [Hk _]
         end.
    all: nonneg.
  - unfold save_game_result. crunch; nonneg.
  - unfold increment_user_coins. crunch; nonneg.
  - unfold decrement_user_coins. crunch; nonneg.
  - unfold add_redemption_request. crunch; nonneg.
  - unfold update_redemption_request_status. crunch; nonneg.
    all: match goal with
         | Hc : RedemptionRequestDB.status _ = "processed" ∧ _ |- _ =>
             destruct Hc as [Hc _]; specialize (Hin _ eq_refl Hc); lia
         end.
  - unfold signup. crunch; nonneg.
  - unfold update_user. crunch; nonneg.
  - unfold put_coin_value. crunch; nonneg.
  - unfold put_referral_rewards. crunch; nonneg.
Qed.

End properties.

(** * The properties on the sample data *)

Lemma redemption_toggle_net_debit_witness :
  ∃ db1 db2 db3 resp1 resp2 resp3,
    serve (H := seconds_lib)
      (UpdateRedemptionRequestStatus "r1" process 1) funded_db
      = (db1, Ok resp1)
    ∧ serve (H := seconds_lib)
        (UpdateRedemptionRequestStatus "r1" unprocess 2) db1
      = (db2, Ok resp2)
    ∧ serve (H := seconds_lib)
        (UpdateRedemptionRequestStatus "r1" process 3) db2
      = (db3, Ok resp3)
    ∧ balance "u1" db1 = Some (6 - 6)
    ∧ balance "u1" db2 = Some (6 - 6 + 6)
    ∧ balance "u1" db3 = Some (6 - 6 + 6 - 6)
    ∧ balance "u1" db3 = Some (6 - 6).
Proof.
  apply (redemption_toggle_net_debit (H := seconds_lib)
           "r1" process unprocess process 1 2 3 funded_db
           cashout_row (alice_row 6 None)).
  - vm_compute. reflexivity.
  - reflexivity.
  - vm_compute. reflexivity.
  - simpl. lia.
  - unfold int64. simpl. lia.
  - unfold int64. simpl. lia.
  - vm_compute. reflexivity.
  - vm_compute. reflexivity.
  - vm_compute. reflexivity.
Defined.

Lemma process_insufficient_funds_witness :
  serve (H := seconds_lib)
    (UpdateRedemptionRequestStatus "r1" process 1) unfunded_db
  = (unfunded_db,
     Raise (HTTPException 400
              ("User does not have enough coins. Current balance: "
               +:+ str 0 +:+ ", Required: " +:+ str 6))).
Proof.
  apply (process_insufficient_funds (H := seconds_lib)
           "r1" process 1 unfunded_db cashout_row (alice_row 0 None)).
  - vm_compute. reflexivity.
  - simpl. discriminate.
  - vm_compute. reflexivity.
  - simpl. lia.
  - vm_compute. reflexivity.
Defined.

Lemma status_update_without_crossing_witness :
  ∃ r',
    users (serve (H := seconds_lib)
             (UpdateRedemptionRequestStatus "r1" reject 1) funded_db).1
    = users funded_db
    ∧ (serve (H := seconds_lib)
         (UpdateRedemptionRequestStatus "r1" reject 1) funded_db).1
      = set_redemption_requests
          (<["r1" := r']> (redemption_requests funded_db)) funded_db
    ∧ RedemptionRequestDB.user_id r' = "u1"
    ∧ RedemptionRequestDB.amount r' = 6
    ∧ RedemptionRequestDB.paymentDetails r' = "upi"
    ∧ RedemptionRequestDB.requestedAt r' = 100.
Proof.
  apply (status_update_without_crossing (H := seconds_lib)
           "r1" reject 1 funded_db cashout_row).
  - vm_compute. reflexivity.
  - simpl. discriminate.
  - vm_compute. discriminate.
Defined.

(** C4 as stated fails: the stored status is the one of the payload, here
    processed, not pending. *)
Lemma create_stores_the_status_of_the_payload :
  redemption_requests
    (serve (H := seconds_lib) (AddRedemptionRequest cashout_processed)
           demo_db).1 !! "r2"
  = Some (RedemptionRequestDB.mk "u1" 6 "upi" "processed" 100 None None 1)
  ∧ "processed" ≠ "pending".
Proof. split; [vm_compute; reflexivity | discriminate]. Defined.

Lemma create_redemption_request_witness :
  users (serve (H := seconds_lib) (AddRedemptionRequest cashout) demo_db).1
  = users demo_db
  ∧ (∀ status_code detail,
       (serve (H := seconds_lib) (AddRedemptionRequest cashout) demo_db).2
       ≠ Raise (HTTPException status_code detail))
  ∧ (∀ resp,
       (serve (H := seconds_lib) (AddRedemptionRequest cashout) demo_db).2
       = Ok resp →
       ∃ row,
         redemption_requests
           (serve (H := seconds_lib) (AddRedemptionRequest cashout)
                  demo_db).1 !! "r1" = Some row
         ∧ RedemptionRequestDB.status row = "pending"
         ∧ RedemptionRequestDB.amount row = 6
         ∧ RedemptionRequestDB.user_id row = "u1").
Proof.
  exact (create_redemption_request_no_balance_effect (H := seconds_lib)
           cashout demo_db).
Defined.





(** C6 as stated fails: a profile update replaces the referrer that the
    referral application had set. *)
Lemma profile_update_rewrites_referredBy :
  UserDB.referredBy <$> users referred_db !! "u1" = Some (Some "u2")
  ∧ UserDB.referredBy
      <$> users (serve (H := seconds_lib) (UpdateUser "u1" alice_rewritten)
                       referred_db).1 !! "u1"
    = Some (Some "u9").
Proof. split; vm_compute; reflexivity. Defined.

Lemma referredBy_kept_witness :
  (∀ code,
     serve (H := seconds_lib)
       (ApplyReferral (ApplyReferralBody.mk code "u1")) referred_db
     = (referred_db,
        Raise (HTTPException 400 "Referral already applied for this user")))
  ∧ ((∀ user, IncrementUserCoins "u1" 3 ≠ UpdateUser "u1" user) →
     ∃ u', users (serve (H := seconds_lib) (IncrementUserCoins "u1" 3)
                        referred_db).1 !! "u1" = Some u'
           ∧ UserDB.referredBy u' = Some "u2").
Proof.
  apply (referredBy_kept_except_by_profile_update (H := seconds_lib)
           (IncrementUserCoins "u1" 3) referred_db "u1"
           (alice_row 5 (Some "u2"))).
  - vm_compute. reflexivity.
  - vm_compute. reflexivity.
Defined.

Lemma update_user_keeps_balance_witness :
  balance "u1"
    (serve (H := seconds_lib) (UpdateUser "u1" alice_rewritten) funded_db).1
  = Some 6.
Proof.
  apply (update_user_keeps_balance (H := seconds_lib)
           "u1" alice_rewritten funded_db (alice_row 6 None)).
  vm_compute. reflexivity.
Defined.

(** C8 as stated fails: a reward of 0 leaves the count of watched ads of
    the day at 1 instead of raising it to 2. *)
Lemma zero_reward_counts_no_watch :
  ads_stats funded_db = [AdsStatsDB.mk "u1" "0" 1 5]
  ∧ ads_stats (serve (H := seconds_lib)
                 (PostAdsReward (RewardBody.mk "u1" 0) 1000) funded_db).1
    = [AdsStatsDB.mk "u1" "0" 1 5].
Proof. split; vm_compute; reflexivity. Defined.

Lemma ads_reward_witness :
  ∃ db' user stats row',
    serve (H := seconds_lib) (PostAdsReward (RewardBody.mk "u1" 5) 1000)
          funded_db
    = (db', Ok (RAdsReward user stats))
    ∧ balance "u1" db' = Some (6 + Z.max 0 5)
    ∧ User.coins user = 6 + Z.max 0 5
    ∧ AdsStatsDB.user_id row' = "u1"
    ∧ AdsStatsDB.date row' = today_ist_date_str (H := seconds_lib) 1000
    ∧ match query_ads_stats "u1" (today_ist_date_str (H := seconds_lib) 1000)
              (ads_stats funded_db) with
      | None =>
          ads_stats db' = ads_stats funded_db ++ [row']
          ∧ AdsStatsDB.watched row' = (if bool_decide (0 < 5) then 1 else 0)
          ∧ AdsStatsDB.coins row' = Z.max 0 5
      | Some (i, row) =>
          ads_stats db' = <[i := row']> (ads_stats funded_db)
          ∧ AdsStatsDB.watched row'
            = AdsStatsDB.watched row + (if bool_decide (0 < 5) then 1 else 0)
          ∧ AdsStatsDB.coins row' = AdsStatsDB.coins row + Z.max 0 5
      end
    ∧ stats = AdsStats.mk "u1" (today_ist_date_str (H := seconds_lib) 1000)
                (AdsStatsDB.watched row') (AdsStatsDB.coins row').
Proof.
  apply (ads_reward_credits_and_upserts (H := seconds_lib)
           (RewardBody.mk "u1" 5) 1000 funded_db (alice_row 6 None)).
  - vm_compute. reflexivity.
  - unfold int64. simpl. lia.
  - vm_compute. repeat split; discriminate.
Defined.

(** C3 as stated fails: a signup with a negative [coins] stores a negative
    balance. *)
Lemma signup_stores_a_negative_balance :
  balances_nonneg empty_db
  ∧ ¬ balances_nonneg (serve (H := seconds_lib) (Signup debtor) empty_db).1.
Proof.
  split.
  - apply map_Forall_empty.
  - intros Hnn.
    assert (Hrow : users (serve (H := seconds_lib) (Signup debtor)
                            empty_db).1 !! "u3"
                   = Some (UserDB.mk "Carol" "carol@example.org" "pw" "c.png"
                             false (-5) 3 0 false None None None None None
                             None None))
      by (vm_compute; reflexivity).
    specialize (Hnn _ _ Hrow). simpl in Hnn. lia.
Defined.

Lemma balances_stay_nonneg_witness :
  balances_nonneg
    (serve (H := seconds_lib)
       (ApplyReferral (ApplyReferralBody.mk "BOB" "u1")) demo_db).1.
Proof.
  apply (balances_stay_nonneg (H := seconds_lib)
           (ApplyReferral (ApplyReferralBody.mk "BOB" "u1")) demo_db).
  - apply (bool_decide_unpack _). vm_compute. exact I.
  - vm_compute. split; discriminate.
Defined.

(** ** Why the amended statements have their side conditions *)

(** A negative referee reward in the settings makes the joiner's balance
    negative. *)
Example negative_referral_reward :
  balance "u1"
    (serve_all (H := seconds_lib)
       [PutReferralRewards (ReferralRewardsBody.mk 15 (-20));
        ApplyReferral (ApplyReferralBody.mk "BOB" "u1")] demo_db)
  = Some (-20).
Proof. vm_compute. reflexivity. Qed.

(** Taking a request with a negative amount out of processed makes the
    owner's balance negative. *)
Example refund_of_a_negative_amount :
  balance "u1"
    (serve_all (H := seconds_lib)
       [AddRedemptionRequest cashout_negative;
        UpdateRedemptionRequestStatus "r3" unprocess 1] demo_db)
  = Some (-5).
Proof. vm_compute. reflexivity. Qed.

(** A [referredBy] that is the empty string does not block a referral
    application, which replaces it. *)
Example empty_referredBy_is_replaced :
  UserDB.referredBy
    <$> users (serve_all (H := seconds_lib)
                 [Signup dave;
                  ApplyReferral (ApplyReferralBody.mk "BOB" "u4")] demo_db)
        !! "u4"
  = Some (Some "u2").
Proof. vm_compute. reflexivity. Qed.

(** The scenario of the specification: a vote, an ad for 5, a redemption of
    6 that is processed and then rejected. *)
Example ledger_scenario :
  balance "u1" funded_db = Some 6
  ∧ balance "u1"
      (serve_all (H := seconds_lib)
         [UpdateRedemptionRequestStatus "r1" process 1] funded_db)
    = Some 0
  ∧ balance "u1"
      (serve_all (H := seconds_lib)
         [UpdateRedemptionRequestStatus "r1" process 1;
          UpdateRedemptionRequestStatus "r1" reject 2] funded_db)
    = Some 6.
Proof. split_and!; vm_compute; reflexivity. Qed.

(** ** What the commit and the rendering can raise *)

(** A vote on a poll that has a comment of an unknown author is counted and
    committed; the rendering that follows raises [AttributeError]. *)
Example vote_counted_on_an_unrenderable_poll :
  serve (H := seconds_lib) (AddVote "p1" "o1" "u1") orphan_db
  = (after_vote "o1" "u1" option1 orphan_db, Raise AttributeError).
Proof. vm_compute. reflexivity. Qed.

(** On a poll with a comment and a reply the vote is answered with both. *)
Example vote_on_a_discussed_poll :
  ∃ view,
    (serve (H := seconds_lib) (AddVote "p1" "o1" "u1") discussed_db).2
    = Ok (RPoll view)
    ∧ Poll.comments view
      = [Comment.mk "c1" alice_user "Tabs, of course" None "10" 0
           [Comment.mk "c2"
              (CommentUser.mk "u2" "Bob" "bob@example.org" "b.png")
              "Spaces" None "11" 0 [] false None]
           false None].
Proof. eexists. vm_compute. split; reflexivity. Qed.

(** A balance beyond 64 bits is refused at the commit of the ad reward,
    which answers status 500 and stores nothing. *)
Example ad_reward_beyond_64_bits :
  serve (H := seconds_lib)
    (PostAdsReward (RewardBody.mk "u1" 9223372036854775808) 1000) demo_db
  = (demo_db,
     Raise (HTTPException 500
              "Failed to grant reward: Python int too large to convert to SQLite INTEGER")).
Proof. vm_compute. reflexivity. Qed.


(** * Further properties of the handlers *)

(** ** [int(str(n))] *)

Lemma lstrip_nonspace a l : is_space a = false → lstrip (a :: l) = a :: l.
Proof. intros Ha. simpl. by rewrite Ha. Qed.

Lemma strip_nonspace l :
  Forall (λ a, is_space a = false) l → strip l = l.
Proof.
  intros Hl. unfold strip.
  assert (Hl1 : lstrip l = l).
  { destruct Hl; [done | by apply lstrip_nonspace]. }
  rewrite Hl1.
  assert (Hr : Forall (λ a, is_space a = false) (reverse l))
    by by apply Forall_reverse.
  assert (Hl2 : lstrip (reverse l) = reverse l).
  { destruct Hr; [done | by apply lstrip_nonspace]. }
  rewrite Hl2. apply reverse_involutive.
Qed.

Lemma digit_of_pretty_N_char x :
  (x < 10)%N → digit_of (pretty_N_char x) = Some (Z.of_N x).
Proof.
  intros Hx.
  assert (x = 0 ∨ x = 1 ∨ x = 2 ∨ x = 3 ∨ x = 4 ∨ x = 5 ∨ x = 6 ∨ x = 7
          ∨ x = 8 ∨ x = 9)%N as Hc by lia.
  repeat destruct Hc as [-> | Hc]; try subst x; reflexivity.
Qed.

Lemma pretty_N_char_plain x :
  is_space (pretty_N_char x) = false
  ∧ pretty_N_char x ≠ "_"%char
  ∧ pretty_N_char x ≠ "-"%char
  ∧ pretty_N_char x ≠ "+"%char.
Proof. unfold pretty_N_char. repeat case_match; by split_and!. Qed.

Lemma pretty_N_go_Forall (P : ascii → Prop) x s :
  (∀ y, P (pretty_N_char y)) →
  Forall P (String.list_ascii_of_string s) →
  Forall P (String.list_ascii_of_string (pretty_N_go x s)).
Proof.
  intros HP. revert s.
  induction (N.lt_wf_0 x) as [x _ IH]. intros s Hs.
  destruct (decide (x = 0)%N) as [-> | Hx]; [by rewrite pretty_N_go_0 |].
  rewrite pretty_N_go_step by lia.
  apply IH; [apply N.div_lt; lia |]. simpl. by constructor.
Qed.

Lemma int_unsigned_pretty_N_go x s :
  (0 < x)%N →
  int_unsigned (String.list_ascii_of_string (pretty_N_go x s))
  = int_digits (Z.of_N x) false (String.list_ascii_of_string s).
Proof.
  revert s. induction (N.lt_wf_0 x) as [x _ IH]. intros s Hx.
  rewrite pretty_N_go_step by done.
  assert (Hm : (x `mod` 10 < 10)%N) by (apply N.mod_lt; lia).
  destruct (decide (x `div` 10 = 0)%N) as [Hd | Hd].
  - rewrite Hd, pretty_N_go_0. simpl.
    rewrite digit_of_pretty_N_char by done.
    assert (x = x `mod` 10)%N as <-; [| done].
    rewrite (N.div_mod x 10) at 1 by lia. lia.
  - assert (Hlt : (x `div` 10 < x)%N) by (apply N.div_lt; lia).
    assert (Hpos : (0 < x `div` 10)%N) by (apply N.neq_0_lt_0; exact Hd).
    rewrite (IH _ Hlt _ Hpos). simpl.
    rewrite bool_decide_eq_false_2 by apply pretty_N_char_plain.
    rewrite digit_of_pretty_N_char by done.
    f_equal. rewrite (N.div_mod x 10) at 3 by lia. lia.
Qed.

Lemma pretty_positive_plain p :
  Forall (λ a, is_space a = false ∧ a ≠ "-"%char ∧ a ≠ "+"%char)
         (String.list_ascii_of_string (pretty (N.pos p))).
Proof.
  unfold pretty, pretty_N. rewrite decide_False by done.
  apply pretty_N_go_Forall; [| constructor].
  intros y. pose proof (pretty_N_char_plain y). tauto.
Qed.

Lemma int_of_ascii_positive p :
  int_of_ascii (pretty (N.pos p)) = Some (Z.pos p).
Proof.
  pose proof (pretty_positive_plain p) as Hplain.
  unfold int_of_ascii.
  rewrite strip_nonspace by (eapply Forall_impl; [done | by intros ? (? & _)]).
  revert Hplain. unfold pretty, pretty_N. rewrite decide_False by done.
  pose proof (int_unsigned_pretty_N_go (N.pos p) "" ltac:(lia)) as Hu.
  destruct (String.list_ascii_of_string (pretty_N_go (N.pos p) ""))
    as [| a l]; [done |].
  intros [(_ & Hm & Hp) _]%Forall_cons.
  by rewrite !bool_decide_eq_false_2 by done.
Qed.

Lemma int_of_ascii_str n : int_of_ascii (str n) = Some n.
Proof.
  destruct n as [| p | p]; [done | apply int_of_ascii_positive |].
  pose proof (int_of_ascii_positive p) as Hp.
  pose proof (pretty_positive_plain p) as Hplain.
  assert (Hsp : Forall (λ a, is_space a = false)
                  (String.list_ascii_of_string (pretty (N.pos p))))
    by (eapply Forall_impl; [done | by intros ? (? & _)]).
  unfold str, pretty, pretty_Z.
  unfold int_of_ascii in *.
  rewrite strip_nonspace by (by constructor).
  rewrite strip_nonspace in Hp by done.
  simpl String.list_ascii_of_string.
  change ("" +:+ pretty p) with (pretty (N.pos p)).
  cbv beta iota.
  rewrite bool_decide_eq_true_2 by done.
  destruct (String.list_ascii_of_string (pretty (N.pos p))) as [| a l];
    [done |].
  apply Forall_cons in Hplain as [(_ & Hm & Hpl) _].
  rewrite !bool_decide_eq_false_2 in Hp by done.
  by rewrite Hp.
Qed.

Lemma is_ascii_str n : is_ascii (str n) = true.
Proof.
  assert (Hpos : ∀ p, Forall (λ a, bool_decide (N_of_ascii a < 128)%N)
                        (String.list_ascii_of_string (pretty (N.pos p)))).
  { intros p. unfold pretty, pretty_N. rewrite decide_False by done.
    apply pretty_N_go_Forall; [| constructor].
    intros y. unfold pretty_N_char. by repeat case_match. }
  unfold is_ascii. apply Is_true_eq_true, forallb_True.
  destruct n as [| p | p]; [by repeat constructor | apply Hpos |].
  unfold str, pretty, pretty_Z. simpl String.list_ascii_of_string.
  change ("" +:+ pretty p) with (pretty (N.pos p)).
  constructor; [done | apply Hpos].
Qed.

(** Parsing what [str] prints gives the number back, whatever the
    interpreter's Unicode tables hold. *)
Lemma int_of_str_str `{PyLib} n : int_of_str (str n) = Some n.
Proof. unfold int_of_str. by rewrite is_ascii_str, int_of_ascii_str. Qed.


Section further_properties.
Context `{PyLib}.

Implicit Types (db : DB) (u : UserDB.t) (r : RedemptionRequestDB.t).

Lemma set_coins_same u : UserDB.set_coins (UserDB.coins u) u = u.
Proof. by destruct u. Qed.

Lemma set_coins_twice c c' u :
  UserDB.set_coins c' (UserDB.set_coins c u) = UserDB.set_coins c' u.
Proof. done. Qed.

Lemma set_users_same db : set_users (users db) db = db.
Proof. by destruct db. Qed.

(** ** Settings *)

(** X1. The referral rewards read back after PUT /settings/referral-rewards
    are exactly the two integers that were put, whatever their sign. *)
Theorem referral_rewards_round_trip (body : ReferralRewardsBody.t) db :
  get_referral_rewards (serve (PutReferralRewards body) db).1 = body.
Proof.
  unfold serve, session, handler, answered, put_referral_rewards, get_referral_rewards,
    get_setting, set_setting. simpl.
  rewrite lookup_insert_ne by done. rewrite !lookup_insert_eq.
  rewrite !int_of_str_str. by destruct body.
Qed.

(** ** Coin increment and decrement *)

(** X3. For an existing user with a non-negative balance, incrementing by
    [amount >= 1], the new balance being a 64-bit value, and then
    decrementing by the same amount succeeds and gives back the database as
    it was; the decrement answers the original balance. *)
Theorem increment_then_decrement_restores user_id amount db u :
  users db !! user_id = Some u →
  1 ≤ amount →
  0 ≤ UserDB.coins u →
  int64 (UserDB.coins u + amount) →
  serve (DecrementUserCoins user_id amount)
        (serve (IncrementUserCoins user_id amount) db).1
  = (db, Ok (RCoins (UserDB.coins u))).
Proof.
  intros Hu Ha Hc Hfit.
  unfold serve, session, handler, answered, increment_user_coins,
    decrement_user_coins.
  simpl. rewrite bool_decide_eq_false_2 by lia. simpl.
  rewrite Hu. simpl. rewrite !or0_id.
  rewrite sqlite_ints_fit by fits. simpl.
  rewrite lookup_insert_eq. simpl.
  rewrite !or0_id. simpl.
  rewrite bool_decide_eq_false_2 by lia. simpl.
  replace (UserDB.coins u + amount - amount) with (UserDB.coins u) by lia.
  rewrite sqlite_ints_fit by fits. simpl.
  rewrite insert_insert_eq.
  rewrite set_coins_twice, set_coins_same.
  rewrite insert_id by done.
  by destruct db.
Qed.

(** X28. An increment that takes the balance beyond 64 bits fails at the
    commit with [OverflowError] and stores nothing. *)
Theorem increment_overflow user_id amount db u :
  users db !! user_id = Some u →
  1 ≤ amount →
  ¬ int64 (UserDB.coins u + amount) →
  serve (IncrementUserCoins user_id amount) db = (db, Raise OverflowError).
Proof.
  intros Hu Ha Hfit.
  unfold serve, session, handler, answered, increment_user_coins.
  simpl. rewrite bool_decide_eq_false_2 by lia. simpl.
  rewrite Hu. simpl. rewrite or0_id.
  rewrite sqlite_ints_overflow; [done |].
  by intros [? _]%Forall_cons.
Qed.

(** X4. A decrement by more than the balance is refused with status 400 and
    changes nothing, so a decrement never takes a balance below zero. *)
Theorem decrement_insufficient user_id amount db u :
  users db !! user_id = Some u →
  1 ≤ amount →
  UserDB.coins u < amount →
  serve (DecrementUserCoins user_id amount) db
  = (db,
     Raise (HTTPException 400
              ("Insufficient coins. Current: " +:+ str (UserDB.coins u)
               +:+ ", required: " +:+ str amount))).
Proof.
  intros Hu Ha Hlt.
  unfold serve, session, handler, answered, decrement_user_coins. simpl.
  rewrite bool_decide_eq_false_2 by lia. simpl.
  rewrite Hu. simpl. rewrite or0_id.
  by rewrite bool_decide_eq_true_2 by lia.
Qed.

(** ** Redemption workflow, continued *)

(** X5. Processing a request that is already processed debits nothing: the
    users table is unchanged, so a request is debited once however often
    it is set to processed without a reversal in between. *)
Theorem reprocessing_debits_nothing
    request_id (request_data : gmap string string) now db r :
  redemption_requests db !! request_id = Some r →
  RedemptionRequestDB.status r = "processed" →
  requested_status request_data r = "processed" →
  users (serve (UpdateRedemptionRequestStatus request_id request_data now)
               db).1 = users db.
Proof.
  intros Hr Hold Hnew.
  destruct (users db !! RedemptionRequestDB.user_id r) as [u|] eqn:Hu.
  - destruct (update_status_neutral request_id request_data now db r u)
      as [resp E]; [done | done | tauto |].
    by rewrite E.
  - by rewrite update_status_not_found by eauto.
Qed.

(** X6. Processing a request and then moving it to any other status gives
    the users table back exactly as it was: the refund undoes the debit.
    The stored balance is a 64-bit value, as every stored integer is. *)
Theorem process_then_revert_restores_users
    request_id (d1 d2 : gmap string string) t1 t2 db r u :
  redemption_requests db !! request_id = Some r →
  RedemptionRequestDB.status r ≠ "processed" →
  users db !! RedemptionRequestDB.user_id r = Some u →
  RedemptionRequestDB.amount r ≤ UserDB.coins u →
  int64 (UserDB.coins u) →
  d1 !! "status" = Some "processed" →
  (∃ s, d2 !! "status" = Some s ∧ s ≠ "processed") →
  users (serve (UpdateRedemptionRequestStatus request_id d2 t2)
           (serve (UpdateRedemptionRequestStatus request_id d1 t1) db).1).1
  = users db.
Proof.
  intros Hr Hold Hu Hle Hfit H1 (s & H2 & Hs).
  destruct (decide (int64 (UserDB.coins u - RedemptionRequestDB.amount r)))
    as [Hdebit | Hdebit].
  - destruct (update_status_debit request_id d1 t1 db r u) as [resp1 E1];
      [done | done | by unfold requested_status; rewrite H1 | done | done
      | done |].
    rewrite E1. simpl.
    set (r1 := touched d1 t1 r).
    set (u1 := UserDB.set_coins _ u).
    set (db1 := set_redemption_requests _ _).
    destruct (update_status_credit request_id d2 t2 db1 r1 u1) as [resp2 E2].
    + apply lookup_insert_eq.
    + apply lookup_insert_eq.
    + simpl. unfold requested_status. by rewrite H1.
    + unfold requested_status. by rewrite H2.
    + subst u1 r1. simpl.
      by replace (UserDB.coins u - RedemptionRequestDB.amount r
                  + RedemptionRequestDB.amount r) with (UserDB.coins u) by lia.
    + rewrite E2. simpl. rewrite insert_insert_eq.
      subst u1. simpl. rewrite set_coins_twice.
      replace (UserDB.coins u - RedemptionRequestDB.amount r
               + RedemptionRequestDB.amount r) with (UserDB.coins u) by lia.
      by rewrite set_coins_same, insert_id.
  - rewrite (update_status_debit_overflow request_id d1 t1 db r u);
      [| done | done | by unfold requested_status; rewrite H1 | done | done
       | done].
    simpl.
    destruct (update_status_neutral request_id d2 t2 db r u) as [resp E];
      [done | done | |].
    + unfold requested_status. rewrite H2. simpl. split; [done |].
      intros ->. done.
    + by rewrite E.
Qed.

(** X7. A status update whose body has no ["status"] key keeps the status
    of the request and every balance; it stamps [updatedAt] and takes the
    ["adminNotes"] of the body when present. *)
Theorem update_without_status_key
    request_id (request_data : gmap string string) now db r u :
  redemption_requests db !! request_id = Some r →
  users db !! RedemptionRequestDB.user_id r = Some u →
  request_data !! "status" = None →
  ∃ resp r',
    serve (UpdateRedemptionRequestStatus request_id request_data now) db
    = (set_redemption_requests
         (<[request_id := r']> (redemption_requests db)) db, Ok resp)
    ∧ RedemptionRequestDB.status r' = RedemptionRequestDB.status r
    ∧ RedemptionRequestDB.amount r' = RedemptionRequestDB.amount r
    ∧ RedemptionRequestDB.updatedAt r' = Some now
    ∧ RedemptionRequestDB.adminNotes r'
      = match request_data !! "adminNotes" with
        | Some notes => Some notes
        | None => RedemptionRequestDB.adminNotes r
        end.
Proof.
  intros Hr Hu Hnone.
  assert (Hsame : requested_status request_data r
                  = RedemptionRequestDB.status r)
    by (unfold requested_status; by rewrite Hnone).
  destruct (update_status_neutral request_id request_data now db r u)
    as [resp E]; [done | done | by rewrite Hsame |].
  exists resp, (touched request_data now r). by rewrite E.
Qed.

(** ** Votes, continued *)

(** X8. A vote keeps the voter lists consistent: if on every option the
    vote count is the length of the voter list and no voter is listed
    twice, the same holds after any vote request, accepted or refused. *)
Theorem vote_keeps_votes_consistent poll_id option_id user_id db :
  votes_consistent db →
  votes_consistent (serve (AddVote poll_id option_id user_id) db).1.
Proof.
  intros Hc. unfold serve, handler, add_vote, query_option.
  crunch; try done.
  all: unfold votes_consistent in *; simpl.
  all: apply map_Forall_insert_2; [| done].
  all: match goal with
       | Ho : poll_options _ !! _ = Some ?o |- _ =>
           destruct (Hc _ _ Ho) as [Hv Hnd]
       end.
  all: simpl; split; [rewrite length_app; simpl; lia |].
  all: apply NoDup_app; split_and!; [done | | apply NoDup_singleton].
  all: intros x Hx ->%list_elem_of_singleton; done.
Qed.

(** X9. The reward of a vote is granted once: at the first vote of an
    existing user on an option of the poll, the new count and the new
    balance being 64-bit values, the vote is counted and exactly one coin is
    added, and the same vote again changes nothing in the database;
    whenever the poll can then be rendered, both calls succeed and answer
    it. *)
Theorem vote_rewarded_once poll_id option_id user_id db
    (p : PollDB.t) (o : PollOptionDB.t) u :
  polls db !! poll_id = Some p →
  poll_options db !! option_id = Some o →
  PollOptionDB.poll_id o = poll_id →
  user_id ∉ PollOptionDB.votedBy o →
  users db !! user_id = Some u →
  int64 (PollOptionDB.votes o + 1) →
  int64 (UserDB.coins u + 1) →
  let db1 := after_vote option_id user_id o db in
  (serve (AddVote poll_id option_id user_id) db).1 = db1
  ∧ balance user_id db1 = Some (UserDB.coins u + 1)
  ∧ poll_options db1 !! option_id = Some (voted user_id o)
  ∧ (serve (AddVote poll_id option_id user_id) db1).1 = db1
  ∧ (∀ view,
       db_to_poll poll_id p db1 = Ok view →
       serve (AddVote poll_id option_id user_id) db = (db1, Ok (RPoll view))
       ∧ serve (AddVote poll_id option_id user_id) db1
         = (db1, Ok (RPoll view))).
Proof.
  intros Hp Ho Hpid Hnin Hu Hvotes Hcoins db1.
  assert (E1 : add_vote poll_id option_id user_id db
               = Ok (db1, RPoll <$> db_to_poll poll_id p db1)).
  { apply add_vote_counted; try done. intros u' Hu'. congruence. }
  assert (Hdb1 : db1
                 = set_users
                     (<[user_id := UserDB.set_coins (UserDB.coins u + 1) u]>
                        (users db))
                     (set_poll_options
                        (<[option_id := voted user_id o]> (poll_options db))
                        db)).
  { subst db1. unfold after_vote. simpl. by rewrite Hu. }
  assert (Ho1 : poll_options db1 !! option_id = Some (voted user_id o)).
  { rewrite Hdb1. simpl. by rewrite lookup_insert_eq. }
  assert (E2 : add_vote poll_id option_id user_id db1
               = Ok (db1, RPoll <$> db_to_poll poll_id p db1)).
  { apply (add_vote_of_a_voter _ _ _ _ p (voted user_id o)).
    - by rewrite Hdb1.
    - done.
    - done.
    - simpl. set_solver. }
  unfold serve, session, handler. rewrite E1, E2. simpl.
  split_and!; try done.
  - rewrite Hdb1. unfold balance. simpl. by rewrite lookup_insert_eq.
  - by intros view ->.
Qed.

(** X10. An option is voted on only through its own poll: naming an
    existing option together with another existing poll is refused with
    status 404 and changes nothing. *)
Theorem vote_through_another_poll_refused poll_id option_id user_id db
    (p : PollDB.t) (o : PollOptionDB.t) :
  polls db !! poll_id = Some p →
  poll_options db !! option_id = Some o →
  PollOptionDB.poll_id o ≠ poll_id →
  serve (AddVote poll_id option_id user_id) db
  = (db, Raise (HTTPException 404 "Option not found")).
Proof.
  intros Hp Ho Hne. unfold serve, session, handler, add_vote, query_option.
  rewrite Hp, Ho. simpl. by rewrite decide_False.
Qed.

(** ** Looking a user up by a column *)

Lemma find_user_unique (P : string * UserDB.t → Prop)
    `{!∀ x, Decision (P x)} (m : gmap string UserDB.t) k u :
  m !! k = Some u →
  P (k, u) →
  (∀ k' u', m !! k' = Some u' → P (k', u') → k' = k) →
  snd <$> list_find P (map_to_list m) = Some (k, u).
Proof.
  intros Hk HP Huniq.
  destruct (list_find_elem_of P (map_to_list m) (k, u)) as [[i [k' u']] Hf];
    [by apply elem_of_map_to_list | done |].
  rewrite Hf. simpl.
  apply list_find_Some in Hf as (Hi & HP' & _).
  apply list_elem_of_lookup_2, elem_of_map_to_list in Hi.
  assert (k' = k) as -> by eauto. congruence.
Qed.

Lemma find_user_None (P : string * UserDB.t → Prop)
    `{!∀ x, Decision (P x)} (m : gmap string UserDB.t) k u :
  list_find P (map_to_list m) = None →
  m !! k = Some u →
  ¬ P (k, u).
Proof.
  intros Hnone Hk.
  apply list_find_None in Hnone.
  rewrite Forall_forall in Hnone. apply Hnone.
  by apply elem_of_map_to_list.
Qed.

(** ** Referrals, continued *)

(** X11. A referral application by a joiner without a referrer, with a code
    that resolves to another user, the two new balances being 64-bit
    values, succeeds: the joiner gets the referee reward and the referrer
    as [referredBy], the referrer gets the referrer reward.  When the
    referrer's id is not the empty string, every further application for
    the joiner is refused with status 400 and changes nothing. *)
Theorem referral_applies_once code joiner_id referrer_id db uj ur :
  users db !! joiner_id = Some uj →
  truthy (UserDB.referredBy uj) = false →
  query_user_by_referralCode code db = Some (referrer_id, ur) →
  referrer_id ≠ joiner_id →
  int64 (UserDB.coins uj
         + ReferralRewardsBody.refereeCoins (get_referral_rewards db)) →
  int64 (UserDB.coins ur
         + ReferralRewardsBody.referrerCoins (get_referral_rewards db)) →
  ∃ db1 resp,
    serve (ApplyReferral (ApplyReferralBody.mk code joiner_id)) db
    = (db1, Ok resp)
    ∧ balance joiner_id db1
      = Some (UserDB.coins uj
              + ReferralRewardsBody.refereeCoins (get_referral_rewards db))
    ∧ balance referrer_id db1
      = Some (UserDB.coins ur
              + ReferralRewardsBody.referrerCoins (get_referral_rewards db))
    ∧ UserDB.referredBy <$> users db1 !! joiner_id
      = Some (Some referrer_id)
    ∧ (referrer_id ≠ "" →
       ∀ code',
         serve (ApplyReferral (ApplyReferralBody.mk code' joiner_id)) db1
         = (db1, Raise (HTTPException 400
                          "Referral already applied for this user"))).
Proof.
  intros Hj Href Hq Hne Hfitj Hfitr.
  unfold serve at 1. unfold session, handler, answered, apply_referral.
  simpl.
  rewrite Hj. simpl. rewrite Href. simpl. rewrite Hq. simpl.
  rewrite bool_decide_eq_false_2 by done. simpl.
  rewrite !or0_id.
  rewrite sqlite_ints_fit by fits. simpl.
  eexists _, _. split; [reflexivity |].
  unfold balance. simpl.
  rewrite lookup_insert_eq.
  rewrite lookup_insert_ne by done. rewrite lookup_insert_eq. simpl.
  split_and!; try done.
  intros Hrid code'.
  unfold serve, session, handler, answered, apply_referral. simpl.
  rewrite lookup_insert_ne by done. rewrite lookup_insert_eq. simpl.
  by rewrite bool_decide_eq_true_2.
Qed.

(** X29. A referral application whose rewards take one of the two balances
    beyond 64 bits is rolled back and answered with status 500: neither
    balance changes and the joiner's [referredBy] stays unset. *)
Theorem referral_overflow code joiner_id referrer_id db uj ur :
  users db !! joiner_id = Some uj →
  truthy (UserDB.referredBy uj) = false →
  query_user_by_referralCode code db = Some (referrer_id, ur) →
  referrer_id ≠ joiner_id →
  ¬ (int64 (UserDB.coins uj
            + ReferralRewardsBody.refereeCoins (get_referral_rewards db))
     ∧ int64 (UserDB.coins ur
              + ReferralRewardsBody.referrerCoins
                  (get_referral_rewards db))) →
  ∃ detail,
    serve (ApplyReferral (ApplyReferralBody.mk code joiner_id)) db
    = (db, Raise (HTTPException 500 detail)).
Proof.
  intros Hj Href Hq Hne Hfit.
  unfold serve, session, handler, answered, apply_referral. simpl.
  rewrite Hj. simpl. rewrite Href. simpl. rewrite Hq. simpl.
  rewrite bool_decide_eq_false_2 by done. simpl.
  rewrite !or0_id.
  rewrite sqlite_ints_overflow; [by eexists |].
  intros [? [? _]%Forall_cons]%Forall_cons. by apply Hfit.
Qed.

(** X12. Nobody can apply their own referral code: when the code belongs to
    the joiner and to no other user, the application is refused with status
    400 and changes nothing. *)
Theorem own_referral_code_refused code joiner_id db u :
  users db !! joiner_id = Some u →
  UserDB.referralCode u = Some code →
  (∀ k u', users db !! k = Some u' →
           UserDB.referralCode u' = Some code → k = joiner_id) →
  ∃ detail,
    serve (ApplyReferral (ApplyReferralBody.mk code joiner_id)) db
    = (db, Raise (HTTPException 400 detail)).
Proof.
  intros Hu Hcode Huniq.
  assert (Hq : query_user_by_referralCode code db = Some (joiner_id, u)).
  { unfold query_user_by_referralCode.
    apply (find_user_unique
             (λ x : string * UserDB.t, UserDB.referralCode x.2 = Some code));
      [done | done |]. intros k' u' Hk' Hc. by eapply Huniq. }
  unfold serve, session, handler, answered, apply_referral. simpl.
  rewrite Hu. simpl.
  destruct (truthy (UserDB.referredBy u)); simpl; [by eexists |].
  rewrite Hq. simpl. rewrite bool_decide_eq_true_2 by done. by eexists.
Qed.

(** ** Accounts *)

(** X13. After a successful signup the new account can log in with the
    email and password it signed up with: the login answers the user the
    signup answered, or the ban message when the payload was banned. *)
Theorem signup_then_login (user : User.t) db db' resp :
  serve (Signup user) db = (db', Ok resp) →
  ∃ user',
    resp = RUser user'
    ∧ User.id user' = User.id user
    ∧ User.coins user' = User.coins user
    ∧ login (LoginRequest.mk (User.email user) (User.password user)) db'
      = if User.isBanned user
        then LoginFailure "This account has been banned."
        else LoginSuccess user'.
Proof.
  unfold serve, session, handler, answered, signup. intros Hs.
  destruct (bool_decide (is_Some (query_user_by_email (User.email user) db)))
    eqn:Hemail; simpl in Hs; [done |].
  apply bool_decide_eq_false in Hemail.
  destruct (date_parser_parse (User.lastAttemptDate user)) as [t|];
    simpl in Hs; [| done].
  destruct (sqlite_ints _); simpl in Hs; [| done].
  destruct (bool_decide (is_Some (users db !! User.id user))) eqn:Hid;
    simpl in Hs; [done |].
  apply bool_decide_eq_false in Hid.
  destruct (unique_violated _ _ _); simpl in Hs; [done |].
  injection Hs as <- <-.
  eexists. split; [reflexivity |]. split; [done |]. split; [done |].
  unfold login, query_user_by_credentials. simpl.
  match goal with
  | |- context [<[?k := ?row]> (users db)] =>
      rewrite (find_user_unique
                 (λ x : string * UserDB.t,
                    UserDB.email x.2 = User.email user
                    ∧ UserDB.password x.2 = User.password user)
                 (<[k := row]> (users db)) k row)
  end.
  - done.
  - apply lookup_insert_eq.
  - done.
  - intros k' u' Hk' [He _].
    destruct (decide (k' = User.id user)) as [-> | Hne]; [done |].
    rewrite lookup_insert_ne in Hk' by done.
    destruct Hemail. unfold query_user_by_email.
    destruct (list_find _ _) as [x|] eqn:Hf; [by eexists |].
    by destruct (find_user_None _ _ _ _ Hf Hk').
Qed.

(** X14. A banned account cannot log in: after POST /users/{id}/ban, a
    login with the credentials of that user, which no other user shares,
    answers the ban message. *)
Theorem banned_user_cannot_login user_id db u :
  users db !! user_id = Some u →
  (∀ k u', users db !! k = Some u' →
           UserDB.email u' = UserDB.email u →
           UserDB.password u' = UserDB.password u → k = user_id) →
  login (LoginRequest.mk (UserDB.email u) (UserDB.password u))
        (run (ban_user user_id) db).1
  = LoginFailure "This account has been banned.".
Proof.
  intros Hu Huniq. unfold run, session, answered, ban_user. rewrite Hu. simpl.
  unfold login, query_user_by_credentials. simpl.
  rewrite (find_user_unique
             (λ x : string * UserDB.t,
                UserDB.email x.2 = UserDB.email u
                ∧ UserDB.password x.2 = UserDB.password u)
             (<[user_id := set_isBanned true u]> (users db)) user_id
             (set_isBanned true u)).
  - done.
  - apply lookup_insert_eq.
  - done.
  - intros k' u' Hk' [He Hp].
    destruct (decide (k' = user_id)) as [-> | Hne]; [done |].
    rewrite lookup_insert_ne in Hk' by done. eauto.
Qed.

(** X15. Toggling the ban of an existing user twice gives the database
    back as it was. *)
Theorem toggle_ban_twice user_id db u :
  users db !! user_id = Some u →
  (run (toggle_user_ban user_id) (run (toggle_user_ban user_id) db).1).1
  = db.
Proof.
  intros Hu. unfold run, session, answered, toggle_user_ban. rewrite Hu.
  simpl.
  rewrite lookup_insert_eq. simpl. rewrite insert_insert_eq.
  rewrite negb_involutive.
  replace (set_isBanned (UserDB.isBanned u) (set_isBanned _ u)) with u
    by (by destruct u).
  rewrite insert_id by done. by destruct db.
Qed.

(** X16. A signup never touches an existing account: every row of [users]
    that was there is still there unchanged, whatever the payload (even
    one that reuses the id or the email of an existing user). *)
Theorem signup_keeps_existing_users (user : User.t) db k u :
  users db !! k = Some u →
  users (serve (Signup user) db).1 !! k = Some u.
Proof.
  intros Hk. unfold serve, handler, signup. crunch; try done.
  rewrite lookup_insert_ne; [done |].
  intros <-. match goal with Hn : ¬ is_Some _ |- _ => destruct Hn end.
  by eexists.
Qed.

(** ** Deleted owners *)

Lemma elem_of_in_rowid_order {A} (rowid : A → N) (table : gmap string A) x :
  x ∈ in_rowid_order rowid table ↔ table !! x.1 = Some x.2.
Proof.
  unfold in_rowid_order. rewrite merge_sort_Permutation.
  destruct x as [k v]. apply elem_of_map_to_list.
Qed.

Lemma elem_of_get_redemption_requests db x :
  x ∈ get_redemption_requests db ↔
  ∃ id r u,
    redemption_requests db !! id = Some r
    ∧ users db !! RedemptionRequestDB.user_id r = Some u
    ∧ x = db_to_redemption_request id r
            (comment_user (RedemptionRequestDB.user_id r) u).
Proof.
  unfold get_redemption_requests. rewrite list_elem_of_omap. split.
  - intros ([id r] & Hin & Hf). apply elem_of_in_rowid_order in Hin.
    simpl in Hin, Hf. destruct (users db !! _) as [u|] eqn:Hu; [| done].
    exists id, r, u. by simplify_eq.
  - intros (id & r & u & Hr & Hu & ->). exists (id, r).
    split; [by apply elem_of_in_rowid_order |]. simpl. by rewrite Hu.
Qed.

(** X17. GET /redemption-requests lists exactly the stored requests whose
    owner is a stored user, each with its id, amount and status; a request
    of a missing owner is skipped, not reported as an error. *)
Theorem redemption_requests_listed db id amount status :
  (∃ x, x ∈ get_redemption_requests db
        ∧ RedemptionRequest.id x = id
        ∧ RedemptionRequest.amount x = amount
        ∧ RedemptionRequest.status x = status)
  ↔ (∃ r, redemption_requests db !! id = Some r
          ∧ is_Some (users db !! RedemptionRequestDB.user_id r)
          ∧ RedemptionRequestDB.amount r = amount
          ∧ RedemptionRequestDB.status r = status).
Proof.
  split.
  - intros (x & Hin & <- & <- & <-).
    apply elem_of_get_redemption_requests in Hin
      as (id & r & u & Hr & Hu & ->).
    exists r. simpl. eauto.
  - intros (r & Hr & [u Hu] & <- & <-).
    exists (db_to_redemption_request id r
              (comment_user (RedemptionRequestDB.user_id r) u)).
    split; [| done].
    apply elem_of_get_redemption_requests. by exists id, r, u.
Qed.

(** X18. Deleting a user leaves the user's redemption requests in the
    table, but they can no longer be moved: every later status update of
    such a request is refused with status 404 and changes nothing, and the
    request is no longer listed. *)
Theorem requests_of_a_deleted_user
    request_id (request_data : gmap string string) now db r u :
  redemption_requests db !! request_id = Some r →
  users db !! RedemptionRequestDB.user_id r = Some u →
  ∃ db1,
    run_session (delete_user (RedemptionRequestDB.user_id r)) db
    = (db1, Ok "User deleted")
    ∧ redemption_requests db1 !! request_id = Some r
    ∧ serve (UpdateRedemptionRequestStatus request_id request_data now) db1
      = (db1, Raise (HTTPException 404 "User not found for this request"))
    ∧ (∀ x, x ∈ get_redemption_requests db1 →
            RedemptionRequest.id x ≠ request_id).
Proof.
  intros Hr Hu. unfold run_session, delete_user. rewrite Hu. simpl.
  eexists. split; [reflexivity |]. split; [done |]. split.
  - unfold serve, session, handler, answered,
      update_redemption_request_status. simpl.
    rewrite Hr. simpl. by rewrite lookup_delete_eq.
  - intros x Hin. apply elem_of_get_redemption_requests in Hin
      as (id & r' & u' & Hr' & Hu' & ->). simpl in *.
    intros ->. rewrite Hr in Hr'. simplify_eq.
    by rewrite lookup_delete_eq in Hu'.
Qed.

(** X19. A redemption request may be created for a [user.id] that is no
    stored user: with a fresh id, an amount that is a 64-bit value and dates
    that parse, the create succeeds and answers the payload as sent, but no
    status update of that request can succeed while the user is missing;
    each is refused with status 404 and changes nothing. *)
Theorem request_of_an_unknown_user
    (request : RedemptionRequest.t) (request_data : gmap string string)
    now db t :
  users db !! CommentUser.id (RedemptionRequest.user request) = None →
  redemption_requests db !! RedemptionRequest.id request = None →
  date_parser_parse (RedemptionRequest.requestedAt request) = Some t →
  (∀ s, RedemptionRequest.updatedAt request = Some s →
        s ≠ "" → is_Some (date_parser_parse s)) →
  int64 (RedemptionRequest.amount request) →
  ∃ db1,
    serve (AddRedemptionRequest request) db
    = (db1, Ok (RRedemptionRequest request))
    ∧ serve (UpdateRedemptionRequestStatus (RedemptionRequest.id request)
               request_data now) db1
      = (db1, Raise (HTTPException 404 "User not found for this request")).
Proof.
  intros Hu Hfresh Hparse Hupd Hfit.
  assert (∃ d,
            (if truthy (RedemptionRequest.updatedAt request) then
               match RedemptionRequest.updatedAt request with
               | Some s =>
                   d ← or_raise (date_parser_parse s) ParserError;
                   Ok (Some d)
               | None => Ok None
               end
             else Ok None) = Ok d) as [d Hd].
  { destruct (RedemptionRequest.updatedAt request) as [s|] eqn:Hs; simpl;
      [| by eexists].
    case_bool_decide as Hne; [| by eexists].
    destruct (Hupd s eq_refl Hne) as [d' ->]. simpl. by eexists. }
  unfold serve at 1. unfold session, handler, answered, add_redemption_request.
  rewrite Hparse. simpl. rewrite Hd. simpl.
  rewrite sqlite_ints_fit by fits. simpl.
  rewrite Hfresh. simpl.
  rewrite ?bool_decide_eq_false_2 by (by intros [? ?]). simpl.
  rewrite Hu. simpl. eexists. split; [reflexivity |].
  unfold serve, session, handler, answered, update_redemption_request_status.
  simpl.
  rewrite lookup_insert_eq. simpl. by rewrite Hu.
Qed.

(** ** Game results *)

(** X20. Saving a game result with a fresh id for an existing user, the
    coins won and the new balance being 64-bit values, succeeds, stores the
    result and credits [max 0 coinsWon]: a positive [coinsWon] is added to
    the balance, a zero or negative one changes no balance.  Sending the
    same result again is refused at the commit, by the primary key or, when
    the balance would leave the 64-bit range, by the overflow, and credits
    nothing. *)
Theorem game_result_credited_once (g : GameResult.t) db u t :
  users db !! CommentUser.id (GameResult.user g) = Some u →
  game_results db !! GameResult.id g = None →
  date_parser_parse (GameResult.playedAt g) = Some t →
  int64 (GameResult.coinsWon g) →
  int64 (UserDB.coins u + Z.max 0 (GameResult.coinsWon g)) →
  ∃ db1 e,
    serve (SaveGameResult g) db = (db1, Ok (RGameResult g))
    ∧ balance (CommentUser.id (GameResult.user g)) db1
      = Some (UserDB.coins u + Z.max 0 (GameResult.coinsWon g))
    ∧ GameResultDB.coinsWon <$> game_results db1 !! GameResult.id g
      = Some (GameResult.coinsWon g)
    ∧ serve (SaveGameResult g) db1 = (db1, Raise e)
    ∧ (e = IntegrityError ∨ e = OverflowError).
Proof.
  intros Hu Hfresh Hparse Hwon Hfit.
  unfold serve at 1. unfold session, handler, answered, save_game_result.
  rewrite Hparse. simpl. rewrite Hu, Hfresh. simpl. rewrite or0_id.
  rewrite ?(bool_decide_eq_false_2 (is_Some None)) by (by intros [? ?]).
  destruct (decide (GameResult.coinsWon g > 0)) as [Hpos | Hpos].
  - rewrite bool_decide_eq_true_2 by done. simpl.
    replace (Z.max 0 (GameResult.coinsWon g)) with (GameResult.coinsWon g)
      in * by lia.
    rewrite !sqlite_ints_fit by fits. simpl.
    eexists _,
      (if decide (int64 (UserDB.coins u + GameResult.coinsWon g
                         + GameResult.coinsWon g))
       then IntegrityError else OverflowError).
    split; [reflexivity |]. unfold balance. simpl.
    rewrite !lookup_insert_eq. simpl. split_and!; [done | done | |].
    + unfold serve, session, handler, answered, save_game_result.
      rewrite Hparse. simpl. rewrite !lookup_insert_eq. simpl.
      rewrite bool_decide_eq_true_2 by done. simpl. rewrite or0_id.
      case_decide.
      * by rewrite !sqlite_ints_fit by fits.
      * by rewrite (sqlite_ints_overflow
                      [UserDB.coins u + GameResult.coinsWon g
                       + GameResult.coinsWon g])
          by (by intros [? _]%Forall_cons).
    + case_decide; tauto.
  - rewrite bool_decide_eq_false_2 by done. simpl.
    replace (Z.max 0 (GameResult.coinsWon g)) with 0 in * by lia.
    rewrite !sqlite_ints_fit by fits. simpl.
    exists (set_game_results
              (<[GameResult.id g :=
                   GameResultDB.mk (CommentUser.id (GameResult.user g))
                     (GameResult.targetTime g) (GameResult.actualTime g)
                     (GameResult.accuracy g) (GameResult.coinsWon g) t]>
                 (game_results db)) (set_users (users db) db)),
           IntegrityError.
    split; [reflexivity |]. unfold balance. simpl.
    rewrite Hu, !lookup_insert_eq. simpl.
    split_and!; [f_equal; lia | done | | by left].
    unfold serve, session, handler, answered, save_game_result.
    rewrite Hparse. simpl. rewrite !lookup_insert_eq. simpl.
    rewrite bool_decide_eq_false_2 by done. simpl.
    by rewrite !sqlite_ints_fit by fits.
Qed.

(** ** Rewarded ads, continued *)

(** X21. GET /ads/stats agrees with the reward: right after an ad reward
    that succeeded, the stats read for that user at the same clock reading
    are the stats the reward answered. *)
Theorem ads_stats_read_back (body : RewardBody.t) now db db' resp :
  serve (PostAdsReward body now) db = (db', Ok resp) →
  ∃ user stats,
    resp = RAdsReward user stats
    ∧ get_ads_stats (RewardBody.userId body) now db' = stats.
Proof.
  unfold serve, session, handler, post_ads_reward, get_ads_stats.
  destruct (users db !! RewardBody.userId body) as [u|]; simpl; [| done].
  destruct (sqlite_ints _); [| done].
  destruct (query_ads_stats _ _ (ads_stats db)) as [[i row]|] eqn:Hq.
  - pose proof Hq as Hq'.
    apply list_find_Some in Hq' as (_ & [Hru Hrd] & _).
    simpl. erewrite query_ads_stats_update by (simpl; eauto). simpl.
    intros [= <- <-]. eexists _, _. split; [reflexivity |]. simpl.
    erewrite query_ads_stats_update by (simpl; eauto). simpl.
    by rewrite Hrd.
  - simpl. erewrite query_ads_stats_append by (simpl; eauto). simpl.
    intros [= <- <-]. eexists _, _. split; [reflexivity |]. simpl.
    by erewrite query_ads_stats_append by (simpl; eauto).
Qed.

(** X22. An ad reward touches one row of [ads_stats] at most: every row of
    another user or of another day keeps its position and its counters. *)
Theorem ads_reward_keeps_other_rows
    (body : RewardBody.t) now db (j : nat) (row : AdsStatsDB.t) :
  ads_stats db !! j = Some row →
  ¬ (AdsStatsDB.user_id row = RewardBody.userId body
     ∧ AdsStatsDB.date row = today_ist_date_str now) →
  ads_stats (serve (PostAdsReward body now) db).1 !! j = Some row.
Proof.
  intros Hj Hother.
  unfold serve, session, handler, post_ads_reward.
  destruct (users db !! RewardBody.userId body) as [u|]; simpl; [| done].
  destruct (sqlite_ints _); [| done].
  destruct (query_ads_stats _ _ (ads_stats db)) as [[i row0]|] eqn:Hq.
  - pose proof Hq as Hq'.
    apply list_find_Some in Hq' as (Hi & [Hru Hrd] & _).
    simpl.
    rewrite list_lookup_insert_ne; [done |].
    intros ->. rewrite Hi in Hj. simplify_eq. tauto.
  - simpl. by apply lookup_app_l_Some.
Qed.

(** X30. An ad reward whose grant takes the balance beyond 64 bits is
    rolled back: the handler answers status 500 and nothing is stored,
    neither the coins nor the watch. *)
Theorem ads_reward_overflow (body : RewardBody.t) now db u :
  users db !! RewardBody.userId body = Some u →
  ¬ int64 (UserDB.coins u + Z.max 0 (RewardBody.amount body)) →
  ∃ detail,
    serve (PostAdsReward body now) db
    = (db, Raise (HTTPException 500 detail)).
Proof.
  intros Hu Hfit.
  unfold serve, session, handler, post_ads_reward. rewrite Hu. simpl.
  rewrite !or0_id.
  rewrite sqlite_ints_overflow; [by eexists |].
  by intros [? _]%Forall_cons.
Qed.

(** ** Polls *)

Lemma add_options_Ok poll_id opts table table' :
  add_options poll_id opts table = Ok table' →
  (∀ k v, table !! k = Some v →
          table' !! k = Some v ∧ k ∉ PollOption.id <$> opts)
  ∧ (∀ opt, opt ∈ opts →
            ∃ rowid,
              table' !! PollOption.id opt
              = Some (option_row poll_id opt rowid)).
Proof.
  revert table. induction opts as [| opt opts IH]; intros table Hok.
  - simpl in Hok. simplify_eq. split; [| by intros ? ?%elem_of_nil].
    intros k v Hk. split; [done | apply not_elem_of_nil].
  - simpl in Hok. unfold mbind, result_bind, raise_if in Hok.
    destruct (sqlite_ints _); [| done].
    case_bool_decide as Hfresh; [done |].
    apply IH in Hok as [Hkeep Hnew]. split.
    + intros k v Hk.
      assert (k ≠ PollOption.id opt)
        by (intros ->; destruct Hfresh; by eexists).
      destruct (Hkeep k v) as [Hk' Hnin];
        [by rewrite lookup_insert_ne |].
      split; [done |]. rewrite fmap_cons. by apply not_elem_of_cons.
    + intros opt' [-> | Hin]%elem_of_cons; [| by apply Hnew].
      eexists. by apply Hkeep, lookup_insert_eq.
Qed.

(** X23. When POST /polls succeeds, the poll is stored, every option of the
    payload can be voted on through the new poll with the votes and voters
    the payload gave it, and no option that existed before is changed. *)
Theorem add_poll_stores_its_options (poll : Poll.t) db db' resp :
  run (add_poll poll) db = (db', Ok resp) →
  is_Some (polls db' !! Poll.id poll)
  ∧ users db' = users db
  ∧ (∀ opt, opt ∈ Poll.options poll →
            ∃ rowid,
              query_option (PollOption.id opt) (Poll.id poll) db'
              = Some (option_row (Poll.id poll) opt rowid))
  ∧ (∀ k o, poll_options db !! k = Some o →
            poll_options db' !! k = Some o).
Proof.
  unfold run, session, answered, add_poll. intros Hrun.
  destruct (date_parser_parse (Poll.createdAt poll)) as [t|];
    simpl in Hrun; [| done].
  case_bool_decide; simpl in Hrun; [done |].
  destruct (add_options _ _ _) as [table|] eqn:Hopts; simpl in Hrun;
    [| done].
  injection Hrun as <- <-. simpl.
  apply add_options_Ok in Hopts as [Hkeep Hnew].
  split_and!.
  - rewrite lookup_insert_eq. by eexists.
  - done.
  - intros opt Hin. unfold query_option. simpl.
    destruct (Hnew opt Hin) as [rowid ->]. simpl.
    exists rowid. by rewrite decide_True.
  - intros k o Hk. by apply Hkeep.
Qed.

Lemma update_options_poll_id opts table k :
  PollOptionDB.poll_id <$> update_options opts table !! k
  = PollOptionDB.poll_id <$> table !! k.
Proof.
  revert table. induction opts as [| opt opts IH]; intros table; [done |].
  simpl. rewrite IH.
  destruct (table !! PollOption.id opt) as [o|] eqn:Ho; [| done].
  destruct (decide (PollOption.id opt = k)) as [<- | Hne].
  - by rewrite lookup_insert_eq, Ho.
  - by rewrite lookup_insert_ne.
Qed.

Lemma update_options_other opts table k :
  k ∉ PollOption.id <$> opts →
  update_options opts table !! k = table !! k.
Proof.
  revert table. induction opts as [| opt opts IH]; intros table Hk;
    [done |].
  rewrite fmap_cons in Hk. apply not_elem_of_cons in Hk as [Hne Hk].
  simpl. rewrite IH by done.
  destruct (table !! PollOption.id opt); [| done].
  by rewrite lookup_insert_ne.
Qed.

(** X24. PUT /polls/{poll_id} creates, deletes and moves no option: after
    it every option id is present exactly when it was before and belongs to
    the same poll, an option the payload does not name is unchanged, and no
    user is touched. *)
Theorem update_poll_keeps_the_option_set poll_id (poll : Poll.t) db k :
  PollOptionDB.poll_id
    <$> poll_options (session (update_poll poll_id poll) db).1 !! k
  = PollOptionDB.poll_id <$> poll_options db !! k
  ∧ (k ∉ PollOption.id <$> Poll.options poll →
     poll_options (session (update_poll poll_id poll) db).1 !! k
     = poll_options db !! k)
  ∧ users (session (update_poll poll_id poll) db).1 = users db.
Proof.
  unfold session, update_poll.
  destruct (polls db !! poll_id); simpl; [| done].
  destruct (sqlite_ints _); simpl; [| done].
  split_and!; [apply update_options_poll_id | | done].
  intros Hk. by apply update_options_other.
Qed.

Lemma update_options_named opts table (opt : PollOption.t)
    (o : PollOptionDB.t) :
  NoDup (PollOption.id <$> opts) →
  opt ∈ opts →
  table !! PollOption.id opt = Some o →
  update_options opts table !! PollOption.id opt
  = Some (PollOptionDB.mk (PollOptionDB.poll_id o) (PollOption.text opt)
            (PollOption.imageUrl opt) (PollOption.votes opt)
            (PollOption.votedBy opt) (PollOptionDB.rowid o)).
Proof.
  revert table o. induction opts as [| opt' opts IH]; intros table o Hnd Hin Ho.
  { by apply elem_of_nil in Hin. }
  rewrite fmap_cons in Hnd. apply NoDup_cons in Hnd as [Hnin Hnd].
  apply elem_of_cons in Hin as [<- | Hin]; simpl.
  - rewrite Ho. rewrite update_options_other by done.
    by rewrite lookup_insert_eq.
  - assert (PollOption.id opt' ≠ PollOption.id opt).
    { intros Heq. apply Hnin. rewrite Heq.
      by apply list_elem_of_fmap_2. }
    destruct (table !! PollOption.id opt') as [o'|].
    + apply IH; [done | done |]. by rewrite lookup_insert_ne.
    + by apply IH.
Qed.

Lemma written_votes_fit opts table :
  NoDup (PollOption.id <$> opts) →
  Forall int64 (PollOption.votes <$> opts) →
  Forall int64 (written_votes opts table).
Proof.
  intros Hnd Hfit. apply Forall_forall. intros v Hv.
  unfold written_votes in Hv.
  apply list_elem_of_omap in Hv as (opt & Hin & Hv).
  destruct (table !! PollOption.id opt) as [o|] eqn:Ho; [| done].
  rewrite (update_options_named opts table opt o) in Hv by done.
  simpl in Hv. simplify_eq.
  rewrite Forall_forall in Hfit. apply Hfit.
  by apply list_elem_of_fmap_2.
Qed.

(** X25. PUT /polls/{poll_id}, when the votes of the payload are 64-bit
    values, takes the vote count and the voter list of every stored option
    the payload names from the payload, and it finds the option by its id
    alone: an option of another poll is rewritten too, and stays with its
    own poll. *)
Theorem update_poll_rewrites_named_options
    poll_id (poll : Poll.t) db (p : PollDB.t) (opt : PollOption.t)
    (o : PollOptionDB.t) :
  polls db !! poll_id = Some p →
  NoDup (PollOption.id <$> Poll.options poll) →
  opt ∈ Poll.options poll →
  poll_options db !! PollOption.id opt = Some o →
  Forall int64 (PollOption.votes <$> Poll.options poll) →
  poll_options (session (update_poll poll_id poll) db).1 !! PollOption.id opt
  = Some (PollOptionDB.mk (PollOptionDB.poll_id o) (PollOption.text opt)
            (PollOption.imageUrl opt) (PollOption.votes opt)
            (PollOption.votedBy opt) (PollOptionDB.rowid o)).
Proof.
  intros Hp Hnd Hin Ho Hfit. unfold session, update_poll. rewrite Hp. simpl.
  rewrite sqlite_ints_fit by (by apply written_votes_fit). simpl.
  by apply update_options_named.
Qed.

(** ** Reading back what a handler answered *)

(** X26. The balance an accepted increment or decrement answers is the
    balance stored: GET /users/{user_id}/coins right after it returns the
    same number. *)
Theorem coins_answer_is_stored user_id amount db db' c :
  (serve (IncrementUserCoins user_id amount) db = (db', Ok (RCoins c))
   ∨ serve (DecrementUserCoins user_id amount) db = (db', Ok (RCoins c))) →
  get_user_coins user_id db' = Ok c.
Proof.
  unfold serve, handler, increment_user_coins, decrement_user_coins,
    get_user_coins.
  intros [Hs | Hs]; crunch.
  all: match goal with
       | Hl : <[_ := _]> _ !! _ = _ |- _ => rewrite lookup_insert_eq in Hl
       end.
  all: by simplify_eq.
Qed.

(** X27. The poll a vote answers is the poll as stored after the vote:
    GET /polls/{poll_id} right after an accepted vote, first or repeated,
    returns the same poll. *)
Theorem vote_answer_is_stored poll_id option_id user_id db db' resp :
  serve (AddVote poll_id option_id user_id) db = (db', Ok resp) →
  ∃ p, resp = RPoll p ∧ get_poll poll_id db' = Ok p.
Proof.
  unfold serve, session, handler, add_vote, get_poll, query_option.
  intros Hs.
  destruct (polls db !! poll_id) as [pdb|] eqn:Hp; simpl in Hs; [| done].
  destruct (poll_options db !! option_id) as [o|]; simpl in Hs; [| done].
  case_decide; simpl in Hs; [| done].
  assert (Hanswer : ∀ db1,
            polls db1 !! poll_id = Some pdb →
            (db1, RPoll <$> db_to_poll poll_id pdb db1) = (db', Ok resp) →
            ∃ p, resp = RPoll p
                 ∧ (or_raise (polls db' !! poll_id)
                      (HTTPException 404 "Poll not found")
                    ≫= λ poll_db, db_to_poll poll_id poll_db db') = Ok p).
  { intros db1 Hp1 [= <- Hr]. rewrite Hp1. simpl.
    destruct (db_to_poll poll_id pdb db1) as [view|]; simpl in Hr; [| done].
    simplify_eq. by eexists. }
  case_bool_decide; simpl in Hs; [by (eapply Hanswer; [| exact Hs]) |].
  destruct (sqlite_ints _); simpl in Hs; [| done].
  destruct (users db !! user_id) as [u|]; simpl in Hs.
  - destruct (sqlite_ints _); simpl in Hs; [| done].
    by (eapply Hanswer; [| exact Hs]).
  - by (eapply Hanswer; [| exact Hs]).
Qed.

End further_properties.

(** * The further properties on the sample data *)

Lemma increment_then_decrement_witness :
  serve (H := seconds_lib) (DecrementUserCoins "u1" 4)
        (serve (H := seconds_lib) (IncrementUserCoins "u1" 4) funded_db).1
  = (funded_db, Ok (RCoins 6)).
Proof.
  apply (increment_then_decrement_restores (H := seconds_lib)
           "u1" 4 funded_db (alice_row 6 None)).
  - vm_compute. reflexivity.
  - lia.
  - simpl. lia.
  - unfold int64. simpl. lia.
Defined.

Lemma decrement_insufficient_witness :
  serve (H := seconds_lib) (DecrementUserCoins "u1" 10) funded_db
  = (funded_db,
     Raise (HTTPException 400
              ("Insufficient coins. Current: " +:+ str 6
               +:+ ", required: " +:+ str 10))).
Proof.
  apply (decrement_insufficient (H := seconds_lib)
           "u1" 10 funded_db (alice_row 6 None)).
  - vm_compute. reflexivity.
  - lia.
  - simpl. lia.
Defined.

Lemma reprocessing_witness :
  users (serve (H := seconds_lib)
           (UpdateRedemptionRequestStatus "r1" process 2) processed_db).1
  = users processed_db.
Proof.
  apply (reprocessing_debits_nothing (H := seconds_lib)
           "r1" process 2 processed_db processed_row).
  - vm_compute. reflexivity.
  - reflexivity.
  - vm_compute. reflexivity.
Defined.

Lemma process_then_revert_witness :
  users (serve (H := seconds_lib)
           (UpdateRedemptionRequestStatus "r1" reject 2)
           (serve (H := seconds_lib)
              (UpdateRedemptionRequestStatus "r1" process 1) funded_db).1).1
  = users funded_db.
Proof.
  apply (process_then_revert_restores_users (H := seconds_lib)
           "r1" process reject 1 2 funded_db cashout_row (alice_row 6 None)).
  - vm_compute. reflexivity.
  - simpl. discriminate.
  - vm_compute. reflexivity.
  - simpl. lia.
  - unfold int64. simpl. lia.
  - vm_compute. reflexivity.
  - exists "rejected". split; [vm_compute; reflexivity | discriminate].
Defined.

Lemma update_without_status_key_witness :
  ∃ resp r',
    serve (H := seconds_lib)
      (UpdateRedemptionRequestStatus "r1" {["adminNotes" := "paid"]} 2)
      processed_db
    = (set_redemption_requests
         (<["r1" := r']> (redemption_requests processed_db)) processed_db,
       Ok resp)
    ∧ RedemptionRequestDB.status r' = "processed"
    ∧ RedemptionRequestDB.amount r' = 6
    ∧ RedemptionRequestDB.updatedAt r' = Some 2
    ∧ RedemptionRequestDB.adminNotes r'
      = match ({["adminNotes" := "paid"]} : gmap string string)
              !! "adminNotes" with
        | Some notes => Some notes
        | None => None
        end.
Proof.
  apply (update_without_status_key (H := seconds_lib)
           "r1" {["adminNotes" := "paid"]} 2 processed_db processed_row
           (alice_row 0 None)).
  - vm_compute. reflexivity.
  - vm_compute. reflexivity.
  - vm_compute. reflexivity.
Defined.

Lemma vote_keeps_votes_consistent_witness :
  votes_consistent
    (serve (H := seconds_lib) (AddVote "p1" "o1" "u2") voted_db).1.
Proof.
  apply (vote_keeps_votes_consistent (H := seconds_lib)
           "p1" "o1" "u2" voted_db).
  apply (bool_decide_unpack _). vm_compute. exact I.
Defined.

Lemma vote_rewarded_once_witness :
  let db1 := after_vote "o1" "u1" option1 demo_db in
  (serve (H := seconds_lib) (AddVote "p1" "o1" "u1") demo_db).1 = db1
  ∧ balance "u1" db1 = Some (0 + 1)
  ∧ poll_options db1 !! "o1" = Some (voted "u1" option1)
  ∧ (serve (H := seconds_lib) (AddVote "p1" "o1" "u1") db1).1 = db1
  ∧ (∀ view,
       db_to_poll (H := seconds_lib) "p1" poll1 db1 = Ok view →
       serve (H := seconds_lib) (AddVote "p1" "o1" "u1") demo_db
       = (db1, Ok (RPoll view))
       ∧ serve (H := seconds_lib) (AddVote "p1" "o1" "u1") db1
         = (db1, Ok (RPoll view))).
Proof.
  apply (vote_rewarded_once (H := seconds_lib)
           "p1" "o1" "u1" demo_db poll1 option1 (alice_row 0 None)).
  - vm_compute. reflexivity.
  - vm_compute. reflexivity.
  - reflexivity.
  - simpl. apply not_elem_of_nil.
  - vm_compute. reflexivity.
  - unfold int64. simpl. lia.
  - unfold int64. simpl. lia.
Defined.

Lemma vote_through_another_poll_witness :
  serve (H := seconds_lib) (AddVote "p2" "o1" "u1") two_polls_db
  = (two_polls_db, Raise (HTTPException 404 "Option not found")).
Proof.
  apply (vote_through_another_poll_refused (H := seconds_lib)
           "p2" "o1" "u1" two_polls_db
           (PollDB.mk "Editor" "" "cat-tech" "" 7 false) option1).
  - vm_compute. reflexivity.
  - vm_compute. reflexivity.
  - simpl. discriminate.
Defined.

Lemma referral_applies_once_witness :
  ∃ db1 resp,
    serve (H := seconds_lib)
      (ApplyReferral (ApplyReferralBody.mk "BOB" "u1")) demo_db
    = (db1, Ok resp)
    ∧ balance "u1" db1
      = Some (0 + ReferralRewardsBody.refereeCoins
                    (get_referral_rewards (H := seconds_lib) demo_db))
    ∧ balance "u2" db1
      = Some (0 + ReferralRewardsBody.referrerCoins
                    (get_referral_rewards (H := seconds_lib) demo_db))
    ∧ UserDB.referredBy <$> users db1 !! "u1" = Some (Some "u2")
    ∧ ("u2" ≠ "" →
       ∀ code',
         serve (H := seconds_lib)
           (ApplyReferral (ApplyReferralBody.mk code' "u1")) db1
         = (db1, Raise (HTTPException 400
                          "Referral already applied for this user"))).
Proof.
  apply (referral_applies_once (H := seconds_lib)
           "BOB" "u1" "u2" demo_db (alice_row 0 None) (bob_row 0)).
  - vm_compute. reflexivity.
  - reflexivity.
  - vm_compute. reflexivity.
  - discriminate.
  - vm_compute. split; discriminate.
  - vm_compute. split; discriminate.
Defined.

Lemma own_referral_code_witness :
  ∃ detail,
    serve (H := seconds_lib)
      (ApplyReferral (ApplyReferralBody.mk "ALICE" "u1")) demo_db
    = (demo_db, Raise (HTTPException 400 detail)).
Proof.
  apply (own_referral_code_refused (H := seconds_lib)
           "ALICE" "u1" demo_db (alice_row 0 None)).
  - vm_compute. reflexivity.
  - reflexivity.
  - change (map_Forall (λ k u', UserDB.referralCode u' = Some "ALICE"
                                → k = "u1") (users demo_db)).
    apply (bool_decide_unpack _). vm_compute. exact I.
Defined.

Lemma signup_then_login_witness :
  ∃ user',
    RUser (db_to_user (H := seconds_lib) "u4"
             (UserDB.mk "Dave" "dave@example.org" "pw" "d.png" false 0 3 0
                false None None None None None None (Some "")))
    = RUser user'
    ∧ User.id user' = "u4"
    ∧ User.coins user' = 0
    ∧ login (H := seconds_lib) (LoginRequest.mk "dave@example.org" "pw")
            (serve (H := seconds_lib) (Signup dave) demo_db).1
      = if false
        then LoginFailure "This account has been banned."
        else LoginSuccess user'.
Proof.
  apply (signup_then_login (H := seconds_lib) dave demo_db
           (serve (H := seconds_lib) (Signup dave) demo_db).1
           (RUser (db_to_user (H := seconds_lib) "u4"
                     (UserDB.mk "Dave" "dave@example.org" "pw" "d.png" false
                        0 3 0 false None None None None None None
                        (Some ""))))).
  vm_compute. reflexivity.
Defined.

Lemma banned_user_cannot_login_witness :
  login (H := seconds_lib) (LoginRequest.mk "alice@example.org" "pw")
        (run (ban_user (H := seconds_lib) "u1") demo_db).1
  = LoginFailure "This account has been banned.".
Proof.
  apply (banned_user_cannot_login (H := seconds_lib)
           "u1" demo_db (alice_row 0 None)).
  - vm_compute. reflexivity.
  - change (map_Forall
              (λ k u', UserDB.email u' = "alice@example.org"
                       → UserDB.password u' = "pw" → k = "u1")
              (users demo_db)).
    apply (bool_decide_unpack _). vm_compute. exact I.
Defined.

Lemma toggle_ban_twice_witness :
  (run (toggle_user_ban (H := seconds_lib) "u1")
       (run (toggle_user_ban (H := seconds_lib) "u1") demo_db).1).1
  = demo_db.
Proof.
  apply (toggle_ban_twice (H := seconds_lib) "u1" demo_db (alice_row 0 None)).
  vm_compute. reflexivity.
Defined.

Lemma signup_keeps_existing_users_witness :
  users (serve (H := seconds_lib) (Signup alice_rewritten) funded_db).1
    !! "u1"
  = Some (alice_row 6 None).
Proof.
  apply (signup_keeps_existing_users (H := seconds_lib)
           alice_rewritten funded_db "u1" (alice_row 6 None)).
  vm_compute. reflexivity.
Defined.

Lemma requests_of_a_deleted_user_witness :
  ∃ db1,
    run_session (delete_user "u1") funded_db = (db1, Ok "User deleted")
    ∧ redemption_requests db1 !! "r1" = Some cashout_row
    ∧ serve (H := seconds_lib)
        (UpdateRedemptionRequestStatus "r1" process 1) db1
      = (db1, Raise (HTTPException 404 "User not found for this request"))
    ∧ (∀ x, x ∈ get_redemption_requests (H := seconds_lib) db1 →
            RedemptionRequest.id x ≠ "r1").
Proof.
  apply (requests_of_a_deleted_user (H := seconds_lib)
           "r1" process 1 funded_db cashout_row (alice_row 6 None)).
  - vm_compute. reflexivity.
  - vm_compute. reflexivity.
Defined.

Lemma request_of_an_unknown_user_witness :
  ∃ db1,
    serve (H := seconds_lib) (AddRedemptionRequest cashout) empty_db
    = (db1, Ok (RRedemptionRequest cashout))
    ∧ serve (H := seconds_lib)
        (UpdateRedemptionRequestStatus "r1" process 1) db1
      = (db1, Raise (HTTPException 404 "User not found for this request")).
Proof.
  apply (request_of_an_unknown_user (H := seconds_lib)
           cashout process 1 empty_db 100).
  - vm_compute. reflexivity.
  - vm_compute. reflexivity.
  - vm_compute. reflexivity.
  - simpl. discriminate.
  - unfold int64. simpl. lia.
Defined.

Lemma game_result_credited_once_witness :
  ∃ db1 e,
    serve (H := seconds_lib) (SaveGameResult game_won) funded_db
    = (db1, Ok (RGameResult game_won))
    ∧ balance "u1" db1 = Some (6 + Z.max 0 4)
    ∧ GameResultDB.coinsWon <$> game_results db1 !! "g1" = Some 4
    ∧ serve (H := seconds_lib) (SaveGameResult game_won) db1
      = (db1, Raise e)
    ∧ (e = IntegrityError ∨ e = OverflowError).
Proof.
  apply (game_result_credited_once (H := seconds_lib)
           game_won funded_db (alice_row 6 None) 50).
  - vm_compute. reflexivity.
  - vm_compute. reflexivity.
  - vm_compute. reflexivity.
  - unfold int64. simpl. lia.
  - unfold int64. simpl. lia.
Defined.

Lemma ads_stats_read_back_witness :
  ∃ user stats,
    RAdsReward (db_to_user (H := seconds_lib) "u1" (alice_row 11 None))
      (AdsStats.mk "u1" "0" 2 10)
    = RAdsReward user stats
    ∧ get_ads_stats (H := seconds_lib) "u1" 1000
        (serve (H := seconds_lib) (PostAdsReward (RewardBody.mk "u1" 5) 1000)
               funded_db).1
      = stats.
Proof.
  apply (ads_stats_read_back (H := seconds_lib)
           (RewardBody.mk "u1" 5) 1000 funded_db
           (serve (H := seconds_lib)
              (PostAdsReward (RewardBody.mk "u1" 5) 1000) funded_db).1
           (RAdsReward (db_to_user (H := seconds_lib) "u1"
                          (alice_row 11 None))
              (AdsStats.mk "u1" "0" 2 10))).
  vm_compute. reflexivity.
Defined.

Lemma ads_reward_keeps_other_rows_witness :
  ads_stats (serve (H := seconds_lib)
               (PostAdsReward (RewardBody.mk "u1" 5) 90000) funded_db).1
    !! 0%nat
  = Some (AdsStatsDB.mk "u1" "0" 1 5).
Proof.
  apply (ads_reward_keeps_other_rows (H := seconds_lib)
           (RewardBody.mk "u1" 5) 90000 funded_db 0%nat
           (AdsStatsDB.mk "u1" "0" 1 5)).
  - vm_compute. reflexivity.
  - vm_compute. intros [_ Hd]. discriminate.
Defined.

Lemma add_poll_stores_its_options_witness :
  is_Some (polls two_polls_db !! "p2")
  ∧ users two_polls_db = users demo_db
  ∧ (∀ opt, opt ∈ Poll.options editor_poll →
            ∃ rowid,
              query_option (PollOption.id opt) "p2" two_polls_db
              = Some (option_row "p2" opt rowid))
  ∧ (∀ k o, poll_options demo_db !! k = Some o →
            poll_options two_polls_db !! k = Some o).
Proof.
  apply (add_poll_stores_its_options (H := seconds_lib)
           editor_poll demo_db two_polls_db (RPoll editor_poll)).
  vm_compute. reflexivity.
Defined.

Lemma update_poll_rewrites_named_options_witness :
  poll_options
    (session (update_poll (H := seconds_lib) "p2" editor_poll_rewrite)
             two_polls_db).1 !! "o1"
  = Some (PollOptionDB.mk "p1" "Tabs" "" 40 ["x"; "y"] 1).
Proof.
  apply (update_poll_rewrites_named_options (H := seconds_lib)
           "p2" editor_poll_rewrite two_polls_db
           (PollDB.mk "Editor" "" "cat-tech" "" 7 false)
           (PollOption.mk "o1" "Tabs" "" 40 ["x"; "y"]) option1).
  - vm_compute. reflexivity.
  - simpl. apply NoDup_singleton.
  - simpl. apply list_elem_of_here.
  - vm_compute. reflexivity.
  - simpl. apply Forall_cons_2; [unfold int64; lia | apply Forall_nil_2].
Defined.

Lemma coins_answer_is_stored_witness :
  get_user_coins "u1"
    (serve (H := seconds_lib) (DecrementUserCoins "u1" 2) funded_db).1
  = Ok 4.
Proof.
  apply (coins_answer_is_stored (H := seconds_lib) "u1" 2 funded_db
           (serve (H := seconds_lib) (DecrementUserCoins "u1" 2) funded_db).1
           4).
  right. vm_compute. reflexivity.
Defined.

Lemma vote_answer_is_stored_witness :
  ∃ p, RPoll voted_poll = RPoll p
       ∧ get_poll (H := seconds_lib) "p1" voted_db = Ok p.
Proof.
  apply (vote_answer_is_stored (H := seconds_lib) "p1" "o1" "u1" demo_db
           voted_db (RPoll voted_poll)).
  vm_compute. reflexivity.
Defined.

Lemma update_poll_keeps_the_option_set_witness :
  PollOptionDB.poll_id
    <$> poll_options
          (session (update_poll (H := seconds_lib) "p2" editor_poll_rewrite)
                   two_polls_db).1 !! "o1"
  = PollOptionDB.poll_id <$> poll_options two_polls_db !! "o1"
  ∧ ("o1" ∉ PollOption.id <$> Poll.options editor_poll_rewrite →
     poll_options
       (session (update_poll (H := seconds_lib) "p2" editor_poll_rewrite)
                two_polls_db).1 !! "o1"
     = poll_options two_polls_db !! "o1")
  ∧ users (session (update_poll (H := seconds_lib) "p2" editor_poll_rewrite)
                   two_polls_db).1
    = users two_polls_db.
Proof.
  exact (update_poll_keeps_the_option_set (H := seconds_lib)
           "p2" editor_poll_rewrite two_polls_db "o1").
Defined.

Lemma increment_overflow_witness :
  serve (H := seconds_lib) (IncrementUserCoins "u1" 9223372036854775807)
        funded_db
  = (funded_db, Raise OverflowError).
Proof.
  apply (increment_overflow (H := seconds_lib)
           "u1" 9223372036854775807 funded_db (alice_row 6 None)).
  - vm_compute. reflexivity.
  - lia.
  - unfold int64. simpl. lia.
Defined.

Lemma referral_overflow_witness :
  ∃ detail,
    serve (H := seconds_lib)
      (ApplyReferral (ApplyReferralBody.mk "BOB" "u1")) greedy_db
    = (greedy_db, Raise (HTTPException 500 detail)).
Proof.
  apply (referral_overflow (H := seconds_lib)
           "BOB" "u1" "u2" greedy_db (alice_row 0 None) (bob_row 0)).
  - vm_compute. reflexivity.
  - reflexivity.
  - vm_compute. reflexivity.
  - discriminate.
  - vm_compute. intros [_ [_ Hhigh]]. by apply Hhigh.
Defined.

Lemma ads_reward_overflow_witness :
  ∃ detail,
    serve (H := seconds_lib)
      (PostAdsReward (RewardBody.mk "u1" 9223372036854775807) 1000) funded_db
    = (funded_db, Raise (HTTPException 500 detail)).
Proof.
  apply (ads_reward_overflow (H := seconds_lib)
           (RewardBody.mk "u1" 9223372036854775807) 1000 funded_db
           (alice_row 6 None)).
  - vm_compute. reflexivity.
  - unfold int64. simpl. lia.
Defined.
